(** * A shallow embedding of the SAML service-provider middleware (middleware.go)

    The Go package keeps its session state in two signed JWTs (jwt-go v2,
    HS256): a relay-state token carrying the original request URI, and a
    session cookie carrying the assertion attributes.  This file embeds
    [RequireAccountMiddleware], [DefaultAuthorizeFunc] and
    [DefaultIsAuthorized], together with the jwt-go functions they call
    ([jwt.New], [Token.SignedString], [jwt.Parse], the signing-method
    registry), and proves the properties of the spec about them.

    The byte-level primitives below jwt-go (base64url segments,
    encoding/json, crypto/hmac, encoding/pem, net/url parsing, cookie
    parsing) are kept abstract in the class [GoLib]; the laws the proofs use
    are the class [GoLibLaws].  A small executable instance [toy_lib] at the
    end is only used to evaluate the statements on concrete inputs. *)

From Stdlib Require Import Ascii ZArith.
From stdpp Require Import base gmap strings list countable fin_maps.

Local Open Scope Z_scope.

(** ** Go values held in a [map[string]interface{}] *)

(** The dynamic values that occur in the claim and header maps of a token:
    Go strings, [int64] (what the code stores for [exp]), [float64] (what
    encoding/json produces for every JSON number; only integral values are
    modelled) and booleans. *)
Inductive value :=
| VString (s : string)
| VInt64 (z : Z)
| VFloat64 (z : Z)
| VBool (b : bool).

#[global] Instance value_eq_dec : EqDecision value.
Proof. solve_decision. Defined.

#[global] Program Instance value_countable : Countable value :=
  inj_countable'
    (λ v, match v with
          | VString s => inl (inl s)
          | VInt64 z => inl (inr z)
          | VFloat64 z => inr (inl z)
          | VBool b => inr (inr b)
          end)
    (λ x, match x with
          | inl (inl s) => VString s
          | inl (inr z) => VInt64 z
          | inr (inl z) => VFloat64 z
          | inr (inr b) => VBool b
          end) _.
Next Obligation. by intros []. Qed.

(** Go's [(T, error)] results. *)
Inductive result (A : Type) :=
| Ok (a : A)
| Err (e : string).
Arguments Ok {A} a.
Arguments Err {A} e.

(** A computation that either returns or panics. *)
Inductive outcome (A : Type) :=
| Ret (a : A)
| Panic (msg : string).
Arguments Ret {A} a.
Arguments Panic {A} msg.

#[global] Instance outcome_ret : MRet outcome := λ A a, Ret a.
#[global] Instance outcome_bind : MBind outcome :=
  λ A B k m, match m with Ret a => k a | Panic s => Panic s end.

Definition nil_deref {A} : outcome A :=
  Panic "runtime error: invalid memory address or nil pointer dereference".

(** Dereferencing a pointer that may be nil ([secretBlock.Bytes],
    [acsURL.Path] when parsing failed). *)
Definition deref {A} (p : option A) : outcome A :=
  match p with Some a => Ret a | None => nil_deref end.

(** ** Strings *)

Definition ascii_eqb (a b : ascii) : bool := Ascii.eqb a b.

Fixpoint has_dot (s : string) : bool :=
  match s with
  | EmptyString => false
  | String c s' => ascii_eqb c "."%char || has_dot s'
  end.

(** [strings.Split(s, ".")]. *)
Fixpoint split_dot (s : string) : list string :=
  match s with
  | EmptyString => [EmptyString]
  | String c s' =>
      let r := split_dot s' in
      if ascii_eqb c "."%char then EmptyString :: r
      else match r with
           | x :: rs => String c x :: rs
           | [] => [String c EmptyString]
           end
  end.

(** [strings.Join(parts, ".")] for two and three parts. *)
Definition join_dot (a b : string) : string := a +:+ "." +:+ b.

(** ** net/textproto: CanonicalMIMEHeaderKey *)

(** [validHeaderFieldByte]: the RFC 7230 token characters. *)
Definition validHeaderFieldByte (c : ascii) : bool :=
  let n := N_of_ascii c in
  ((48 <=? n) && (n <=? 57))%N || ((65 <=? n) && (n <=? 90))%N ||
  ((97 <=? n) && (n <=? 122))%N ||
  existsb (λ d, (n =? d)%N) [33; 35; 36; 37; 38; 39; 42; 43; 45; 46; 94; 95; 96; 124; 126]%N.

Definition is_lower (c : ascii) : bool :=
  ((97 <=? N_of_ascii c) && (N_of_ascii c <=? 122))%N.
Definition is_upper (c : ascii) : bool :=
  ((65 <=? N_of_ascii c) && (N_of_ascii c <=? 90))%N.
Definition toLower (c : ascii) : ascii := ascii_of_N (N_of_ascii c + 32).
Definition toUpper (c : ascii) : ascii := ascii_of_N (N_of_ascii c - 32).

(** The rewriting loop of [canonicalMIMEHeaderKey]. *)
Fixpoint canonical_go (upper : bool) (a : string) : string :=
  match a with
  | EmptyString => EmptyString
  | String c a' =>
      let c' := if upper && is_lower c then toUpper c
                else if negb upper && is_upper c then toLower c
                else c in
      String c' (canonical_go (ascii_eqb c' "-"%char) a')
  end.

Fixpoint all_valid (a : string) : bool :=
  match a with
  | EmptyString => true
  | String c a' => validHeaderFieldByte c && all_valid a'
  end.

(** [canonicalMIMEHeaderKey(a []byte)]: unchanged if some byte is not a
    token character. *)
Definition canonicalMIMEHeaderKey (a : string) : string :=
  if all_valid a then canonical_go true a else a.

(** The quick check of [CanonicalMIMEHeaderKey(s)]. *)
Fixpoint canonical_quick (upper : bool) (s0 s : string) : string :=
  match s with
  | EmptyString => s0
  | String c s' =>
      if negb (validHeaderFieldByte c) then s0
      else if upper && is_lower c then canonicalMIMEHeaderKey s0
      else if negb upper && is_upper c then canonicalMIMEHeaderKey s0
      else canonical_quick (ascii_eqb c "-"%char) s0 s'
  end.

Definition CanonicalMIMEHeaderKey (s : string) : string := canonical_quick true s s.

(** ** net/http: Header, url.Values *)

(** [http.Header.Set]. *)
Definition Header_Set (h : gmap string (list string)) (key v : string)
  : gmap string (list string) :=
  <[CanonicalMIMEHeaderKey key := [v]]> h.

(** [http.Header.Get]. *)
Definition Header_Get (h : gmap string (list string)) (key : string) : string :=
  match h !! CanonicalMIMEHeaderKey key with
  | Some (v :: _) => v
  | _ => ""
  end.

(** [url.Values.Get]. *)
Definition Values_Get (vs : gmap string (list string)) (key : string) : string :=
  match vs !! key with
  | Some (v :: _) => v
  | _ => ""
  end.

(** ** net/url (as of Go 1.14): URL, EscapedPath and String *)

Definition byte_in (lo hi : N) (c : ascii) : bool :=
  ((lo <=? N_of_ascii c) && (N_of_ascii c <=? hi))%N.

(** [c] is one of the bytes of [cs] (the cases of a Go [switch]). *)
Fixpoint char_in (c : ascii) (cs : string) : bool :=
  match cs with
  | EmptyString => false
  | String d cs' => ascii_eqb c d || char_in c cs'
  end.

(** [url.Userinfo]: the user name and, when [passwordSet], the password. *)
Record Userinfo := {
  UI_username : string;
  UI_password : option string
}.

(** [url.URL].  [URL_Path] is the decoded path (what [r.URL.Path] holds),
    [URL_RawPath] the encoded hint that [EscapedPath] may use, and
    [URL_User] is [None] for a nil [*Userinfo]. *)
Record URL := {
  URL_Scheme : string;
  URL_Opaque : string;
  URL_User : option Userinfo;
  URL_Host : string;
  URL_Path : string;
  URL_RawPath : string;
  URL_ForceQuery : bool;
  URL_RawQuery : string;
  URL_Fragment : string
}.

Inductive encoding :=
| encodePath
| encodePathSegment
| encodeHost
| encodeZone
| encodeUserPassword
| encodeQueryComponent
| encodeFragment.

Definition is_host_mode (mode : encoding) : bool :=
  match mode with encodeHost | encodeZone => true | _ => false end.

(** [shouldEscape(c, mode)]. *)
Definition shouldEscape (c : ascii) (mode : encoding) : bool :=
  if byte_in 97 122 c || byte_in 65 90 c || byte_in 48 57 c then false
  else if is_host_mode mode && (char_in c "!$&'()*+,;=:[]<>" || ascii_eqb c "034"%char)
  then false
  else if char_in c "-_.~" then false
  else if char_in c "$&+,/:;=?@" then
    match mode with
    | encodePath => ascii_eqb c "?"%char
    | encodePathSegment => char_in c "/;,?"
    | encodeUserPassword => char_in c "@/?:"
    | encodeQueryComponent => true
    | encodeFragment => false
    | encodeHost | encodeZone => true
    end
  else if (match mode with encodeFragment => true | _ => false end) && char_in c "!()*"
  then false
  else true.

Definition is_query_mode (mode : encoding) : bool :=
  match mode with encodeQueryComponent => true | _ => false end.

Definition upperhex (n : N) : ascii :=
  match String.get (N.to_nat n) "0123456789ABCDEF" with Some c => c | None => "0"%char end.

(** [escape(s, mode)]. *)
Fixpoint escape (s : string) (mode : encoding) : string :=
  match s with
  | EmptyString => EmptyString
  | String c s' =>
      if ascii_eqb c " "%char && is_query_mode mode then String "+"%char (escape s' mode)
      else if shouldEscape c mode then
        String "%"%char (String (upperhex (N_of_ascii c / 16))
                           (String (upperhex (N_of_ascii c mod 16)) (escape s' mode)))
      else String c (escape s' mode)
  end.

Definition ishex (c : ascii) : bool :=
  byte_in 48 57 c || byte_in 97 102 c || byte_in 65 70 c.

Definition unhex (c : ascii) : N :=
  if byte_in 48 57 c then N_of_ascii c - 48
  else if byte_in 97 102 c then N_of_ascii c - 87
  else if byte_in 65 70 c then N_of_ascii c - 55
  else 0.

(** [unescape(s, mode)], [None] for its [EscapeError] and
    [InvalidHostError]; the counting pass and the decoding pass of the Go
    code are fused. *)
Fixpoint unescape (s : string) (mode : encoding) : option string :=
  match s with
  | EmptyString => Some EmptyString
  | String c s' =>
      if ascii_eqb c "%"%char then
        match s' with
        | String h1 (String h2 s'') =>
            if ishex h1 && ishex h2 then
              let pct25 := ascii_eqb h1 "2"%char && ascii_eqb h2 "5"%char in
              let v := ascii_of_N (unhex h1 * 16 + unhex h2) in
              if (match mode with encodeHost => true | _ => false end)
                 && (unhex h1 <? 8)%N && negb pct25 then None
              else if (match mode with encodeZone => true | _ => false end)
                      && negb pct25 && negb (ascii_eqb v " "%char)
                      && shouldEscape v encodeHost then None
              else t ← unescape s'' mode; Some (String v t)
            else None
        | _ => None
        end
      else if ascii_eqb c "+"%char then
        t ← unescape s' mode;
        Some (String (if is_query_mode mode then " "%char else "+"%char) t)
      else if is_host_mode mode && byte_in 0 127 c && shouldEscape c mode then None
      else t ← unescape s' mode; Some (String c t)
  end.

(** [validEncodedPath(s)]. *)
Fixpoint validEncodedPath (s : string) : bool :=
  match s with
  | EmptyString => true
  | String c s' =>
      (char_in c "!$&'()*+,;=:@" || char_in c "[]" || ascii_eqb c "%"%char
       || negb (shouldEscape c encodePath))
      && validEncodedPath s'
  end.

Definition nonempty (s : string) : bool := negb (String.eqb s "").

(** [u.EscapedPath()]. *)
Definition EscapedPath (u : URL) : string :=
  let raw := URL_RawPath u in
  if nonempty raw && validEncodedPath raw &&
     (match unescape raw encodePath with
      | Some p => String.eqb p (URL_Path u)
      | None => false
      end)
  then raw
  else if String.eqb (URL_Path u) "*" then "*"
  else escape (URL_Path u) encodePath.

(** [u.String()] of a [*Userinfo]. *)
Definition Userinfo_String (ui : Userinfo) : string :=
  escape (UI_username ui) encodeUserPassword +:+
    match UI_password ui with
    | Some p => ":" +:+ escape p encodeUserPassword
    | None => ""
    end.

(** [strings.IndexByte(path, ':')] is found and [path[:i]] has no ['/']. *)
Fixpoint colon_before_slash (p : string) : bool :=
  match p with
  | EmptyString => false
  | String c p' =>
      if ascii_eqb c ":"%char then true
      else if ascii_eqb c "/"%char then false
      else colon_before_slash p'
  end.

Definition first_is_slash (p : string) : bool :=
  match p with String c _ => ascii_eqb c "/"%char | EmptyString => false end.

(** [url.URL.String]; the [bytes.Buffer] is the string built so far, and
    [buf.Len() == 0] is tested on it before the path is written. *)
Definition URL_String (u : URL) : string :=
  let has_user := match URL_User u with Some _ => true | None => false end in
  let b1 := if nonempty (URL_Scheme u) then URL_Scheme u +:+ ":" else "" in
  let body :=
    if nonempty (URL_Opaque u) then b1 +:+ URL_Opaque u
    else
      let b2 := if nonempty (URL_Scheme u) || nonempty (URL_Host u) || has_user
                then (if nonempty (URL_Host u) || nonempty (URL_Path u) || has_user
                      then "//" else "")
                     +:+ (match URL_User u with
                          | Some ui => Userinfo_String ui +:+ "@"
                          | None => ""
                          end)
                     +:+ (if nonempty (URL_Host u) then escape (URL_Host u) encodeHost else "")
                else "" in
      let path := EscapedPath u in
      let b3 := if nonempty path && negb (first_is_slash path) && nonempty (URL_Host u)
                then "/" else "" in
      let b := b1 +:+ b2 +:+ b3 in
      let b4 := if negb (nonempty b) && colon_before_slash path then "./" else "" in
      b +:+ b4 +:+ path in
  body +:+
    (if URL_ForceQuery u || nonempty (URL_RawQuery u) then "?" +:+ URL_RawQuery u else "") +:+
    (if nonempty (URL_Fragment u) then "#" +:+ escape (URL_Fragment u) encodeFragment else "").

(** ** encoding/json: the text on which Marshal/Unmarshal round-trip *)

(** Well-formed UTF-8 (json.Marshal replaces ill-formed bytes by U+FFFD). *)
Fixpoint utf8_valid (s : string) : bool :=
  match s with
  | EmptyString => true
  | String c0 r =>
      if byte_in 0 127 c0 then utf8_valid r
      else if byte_in 194 223 c0 then
        match r with
        | String c1 r1 => byte_in 128 191 c1 && utf8_valid r1
        | _ => false
        end
      else if byte_in 224 239 c0 then
        match r with
        | String c1 (String c2 r2) =>
            (if byte_in 224 224 c0 then byte_in 160 191 c1
             else if byte_in 237 237 c0 then byte_in 128 159 c1
             else byte_in 128 191 c1)
            && byte_in 128 191 c2 && utf8_valid r2
        | _ => false
        end
      else if byte_in 240 244 c0 then
        match r with
        | String c1 (String c2 (String c3 r3)) =>
            (if byte_in 240 240 c0 then byte_in 144 191 c1
             else if byte_in 244 244 c0 then byte_in 128 143 c1
             else byte_in 128 191 c1)
            && byte_in 128 191 c2 && byte_in 128 191 c3 && utf8_valid r3
        | _ => false
        end
      else false
  end.

(** Values that JSON carries exactly: well-formed strings, integers that a
    float64 holds exactly. *)
Definition value_text (v : value) : bool :=
  match v with
  | VString s => utf8_valid s
  | VInt64 z | VFloat64 z => Z.abs z <=? 2 ^ 53
  | VBool _ => true
  end.

Definition json_text (m : gmap string value) : bool :=
  forallb (λ kv, utf8_valid kv.1 && value_text kv.2) (map_to_list m).

(** What [json.Unmarshal] into [map[string]interface{}] gives back for a
    marshalled value: every number becomes a float64. *)
Definition json_reread (v : value) : value :=
  match v with
  | VInt64 z => VFloat64 z
  | v => v
  end.

(** ** The primitives below jwt-go *)

Inductive Hash := SHA256 | SHA384 | SHA512.

#[global] Instance Hash_eq_dec : EqDecision Hash.
Proof. solve_decision. Defined.

Class GoLib := {
  (** jwt-go [EncodeSegment] / [DecodeSegment] (unpadded base64url) *)
  EncodeSegment : string → string;
  DecodeSegment : string → option string;
  (** [json.Marshal] / [json.Unmarshal] of a [map[string]interface{}] *)
  json_Marshal : gmap string value → string;
  json_Unmarshal : string → option (gmap string value);
  (** [hmac.New(h.New, key)], [Write(msg)], [Sum(nil)] *)
  hmac_Sum : Hash → string → string → string;
  (** the [Bytes] of the block found by [pem.Decode], [None] for nil *)
  pem_Decode : string → option string;
  (** [url.Parse], [None] on error *)
  url_Parse : string → option URL;
  (** [r.Cookie(name)] on the request headers, its [Value] *)
  readCookie : gmap string (list string) → string → option string
}.

Class GoLibLaws `{GoLib} := {
  DecodeSegment_EncodeSegment s : DecodeSegment (EncodeSegment s) = Some s;
  EncodeSegment_no_dot s : has_dot (EncodeSegment s) = false;
  json_roundtrip (m : gmap string value) :
    json_text m = true → json_Unmarshal (json_Marshal m) = Some (json_reread <$> m)
}.

(** ** jwt-go (v2): signing methods *)

Inductive SigningMethod :=
| SigningMethodHMAC (h : Hash)
| SigningMethodRSA (h : Hash)
| SigningMethodRSAPSS (h : Hash)
| SigningMethodECDSA (h : Hash)
| SigningMethodNone.

Definition hash_bits (h : Hash) : string :=
  match h with SHA256 => "256" | SHA384 => "384" | SHA512 => "512" end.

(** [m.Alg()]. *)
Definition Alg (m : SigningMethod) : string :=
  match m with
  | SigningMethodHMAC h => "HS" +:+ hash_bits h
  | SigningMethodRSA h => "RS" +:+ hash_bits h
  | SigningMethodRSAPSS h => "PS" +:+ hash_bits h
  | SigningMethodECDSA h => "ES" +:+ hash_bits h
  | SigningMethodNone => "none"
  end.

(** The methods registered by the package's [init] functions. *)
Definition signingMethods : list SigningMethod :=
  [SigningMethodHMAC SHA256; SigningMethodHMAC SHA384; SigningMethodHMAC SHA512;
   SigningMethodRSA SHA256; SigningMethodRSA SHA384; SigningMethodRSA SHA512;
   SigningMethodRSAPSS SHA256; SigningMethodRSAPSS SHA384; SigningMethodRSAPSS SHA512;
   SigningMethodECDSA SHA256; SigningMethodECDSA SHA384; SigningMethodECDSA SHA512;
   SigningMethodNone].

(** [jwt.GetSigningMethod(alg)], [None] for nil. *)
Definition GetSigningMethod (alg : string) : option SigningMethod :=
  find (λ m, String.eqb (Alg m) alg) signingMethods.

Definition HS256 : SigningMethod := SigningMethodHMAC SHA256.

Section Jwt.
Context `{GoLib}.

(** [m.Sign(signingString, key)] with a [[]byte] key, the only key type the
    package passes.  The RSA, RSA-PSS and ECDSA methods require parsed key
    objects and "none" requires a special constant: all return
    [ErrInvalidKey] (or the "none" refusal) for a byte slice. *)
Definition Sign (m : SigningMethod) (signingString key : string) : result string :=
  match m with
  | SigningMethodHMAC h => Ok (EncodeSegment (hmac_Sum h key signingString))
  | SigningMethodNone => Err "'none' signature type is not allowed"
  | _ => Err "key is invalid or of invalid type"
  end.

(** [m.Verify(signingString, signature, key)] with a [[]byte] key. *)
Definition Verify (m : SigningMethod) (signingString signature key : string) : result unit :=
  match m with
  | SigningMethodHMAC h =>
      match DecodeSegment signature with
      | None => Err "illegal base64 data"
      | Some sig =>
          if String.eqb sig (hmac_Sum h key signingString) then Ok tt
          else Err "signature is invalid"
      end
  | SigningMethodNone => Err "'none' signature type is not allowed"
  | _ => Err "key is invalid or of invalid type"
  end.

Record Token := {
  Token_Raw : string;
  Token_Method : SigningMethod;
  Token_Header : gmap string value;
  Token_Claims : gmap string value;
  Token_Signature : string
}.

(** [jwt.New(method)]. *)
Definition New (m : SigningMethod) : Token := {|
  Token_Raw := "";
  Token_Method := m;
  Token_Header := <["typ" := VString "JWT"]> {["alg" := VString (Alg m)]};
  Token_Claims := ∅;
  Token_Signature := ""
|}.

(** [token.Claims[k] = v]. *)
Definition set_claim (t : Token) (k : string) (v : value) : Token := {|
  Token_Raw := Token_Raw t;
  Token_Method := Token_Method t;
  Token_Header := Token_Header t;
  Token_Claims := <[k := v]> (Token_Claims t);
  Token_Signature := Token_Signature t
|}.

(** A token whose claim map is [claims]. *)
Definition with_claims (t : Token) (claims : gmap string value) : Token := {|
  Token_Raw := Token_Raw t;
  Token_Method := Token_Method t;
  Token_Header := Token_Header t;
  Token_Claims := claims;
  Token_Signature := Token_Signature t
|}.

(** [t.SigningString()]; marshalling a map of strings, numbers and booleans
    cannot fail. *)
Definition SigningString (t : Token) : string :=
  join_dot (EncodeSegment (json_Marshal (Token_Header t)))
           (EncodeSegment (json_Marshal (Token_Claims t))).

(** [t.SignedString(key)]. *)
Definition SignedString (t : Token) (key : string) : result string :=
  let sstr := SigningString t in
  match Sign (Token_Method t) sstr key with
  | Ok sig => Ok (join_dot sstr sig)
  | Err e => Err e
  end.

(** [exp] and [nbf] checks of [jwt.Parse]: only float64 claims count. *)
Definition expired (now : Z) (claims : gmap string value) : bool :=
  match claims !! "exp" with Some (VFloat64 exp) => now >? exp | _ => false end.
Definition not_yet_valid (now : Z) (claims : gmap string value) : bool :=
  match claims !! "nbf" with Some (VFloat64 nbf) => now <? nbf | _ => false end.

Definition is_ok {A} (r : result A) : bool := match r with Ok _ => true | Err _ => false end.

(** [jwt.Parse(tokenString, keyFunc)], with [now = TimeFunc().Unix()].
    [Ok t] stands for a nil error together with [t.Valid == true]: in
    jwt-go the two always go together, and the package tests
    [err != nil || !token.Valid].  The key function may panic. *)
Definition Parse (now : Z) (tokenString : string) (keyFunc : Token → outcome string)
  : outcome (result Token) :=
  match split_dot tokenString with
  | [p0; p1; p2] =>
      match DecodeSegment p0 ≫= json_Unmarshal with
      | None => Ret (Err "malformed header")
      | Some header =>
      match DecodeSegment p1 ≫= json_Unmarshal with
      | None => Ret (Err "malformed claims")
      | Some claims =>
      match header !! "alg" with
      | Some (VString alg) =>
          match GetSigningMethod alg with
          | None => Ret (Err "signing method (alg) is unavailable.")
          | Some method =>
              let token := {| Token_Raw := tokenString; Token_Method := method;
                              Token_Header := header; Token_Claims := claims;
                              Token_Signature := p2 |} in
              key ← keyFunc token;
              let verr := Verify method (join_dot p0 p1) p2 key in
              if negb (expired now claims) && negb (not_yet_valid now claims) && is_ok verr
              then Ret (Ok token)
              else Ret (Err "token is invalid")
          end
      | _ => Ret (Err "signing method (alg) is unspecified.")
      end
      end
      end
  | _ => Ret (Err "token contains an invalid number of segments")
  end.

End Jwt.

(** ** The middleware *)

(** Modelled from the spec: the [ServiceProvider] type (service_provider.go,
    not among the sources).  Only what middleware.go reads: the PEM key,
    the two configured URLs, and the assertion verifier's "build redirect
    authentication request" operation (§6), which may fail. *)
Record ServiceProvider := {
  SP_Key : string;
  SP_MetadataURL : string;
  SP_AcsURL : string;
  SP_MakeRedirectAuthenticationRequest : string → result URL
}.

(** Modelled from the spec: [AssertionAttribute] (not among the sources),
    an attribute's friendly name and its string value. *)
Record AssertionAttribute := {
  FriendlyName : string;
  Value : string
}.

Record Request := {
  Req_URL : URL;
  Req_Header : gmap string (list string);
  (** [r.Form] after [ParseForm] *)
  Req_Form : gmap string (list string)
}.

Record Cookie := {
  Cookie_Name : string;
  Cookie_Value : string;
  Cookie_MaxAge : Z;
  Cookie_HttpOnly : bool;
  Cookie_Path : string
}.

(** What a handler writes to its [http.ResponseWriter]. *)
Inductive Event :=
| EvError (code : Z) (text : string)    (* http.Error *)
| EvSetCookie (c : Cookie)              (* http.SetCookie *)
| EvRedirect (target : string) (code : Z) (* http.Redirect, its url argument *)
| EvServed (r : Request).               (* the wrapped handler ran on r *)

Definition StatusFound : Z := 302.
Definition StatusForbidden : Z := 403.
Definition StatusInternalServerError : Z := 500.

(** [cookieMaxAge = time.Hour], in seconds: [int(cookieMaxAge.Seconds())],
    and what [Add(cookieMaxAge).Unix()] adds to a Unix time. *)
Definition cookieMaxAge : Z := 3600.
Definition cookieName : string := "token".

Definition with_header (r : Request) (h : gmap string (list string)) : Request :=
  {| Req_URL := Req_URL r; Req_Header := h; Req_Form := Req_Form r |}.

Section Middleware.
Context `{GoLib}.

(** The middleware's functions take the verification time
    [jwt.TimeFunc().Unix()], the issuing time [timeNow().Unix()] and, for
    [for k, v := range token.Claims], the iteration order the runtime
    picks. *)
Variable range_claims : gmap string value → list (string * value).

Record ServiceProviderMiddleware := {
  MW_ServiceProvider : ServiceProvider;
  IsAuthorizedFunc : option (Request → outcome (bool * Request));
  AuthorizeFunc : option (Request → list AssertionAttribute → outcome (list Event))
}.

(** The key function of [DefaultIsAuthorized]: decodes the PEM key on each
    call and dereferences the block. *)
Definition session_keyfunc (m : ServiceProviderMiddleware) (_ : Token) : outcome string :=
  deref (pem_Decode (SP_Key (MW_ServiceProvider m))).

Definition has_prefix_header (h : gmap string (list string)) : bool :=
  existsb (λ kv, String.prefix "X-Saml" kv.1) (map_to_list h).

(** [for claimName, claimValue := range token.Claims { if c, ok :=
    claimValue.(string); ok { r.Header.Set("X-Saml-"+claimName, c) } }]. *)
Definition copy_claims (h : gmap string (list string)) (cl : list (string * value))
  : gmap string (list string) :=
  foldl (λ h kv, match kv.2 with
                 | VString c => Header_Set h ("X-Saml-" +:+ kv.1) c
                 | _ => h
                 end) h cl.

(** [DefaultIsAuthorized]; it returns the request with its (mutated)
    headers. *)
Definition DefaultIsAuthorized (m : ServiceProviderMiddleware) (now : Z) (r : Request)
  : outcome (bool * Request) :=
  match readCookie (Req_Header r) cookieName with
  | None => Ret (false, r)
  | Some cookie =>
      res ← Parse now cookie (session_keyfunc m);
      match res with
      | Err _ => Ret (false, r)
      | Ok token =>
          if has_prefix_header (Req_Header r)
          then Panic "X-Saml-* headers should not exist when this function is called"
          else Ret (true, with_header r
                            (copy_claims (Req_Header r) (range_claims (Token_Claims token))))
      end
  end.

(** The relay-state token built by [RequireAccountMiddleware]. *)
Definition relay_state_token (r : Request) : Token :=
  set_claim (New HS256) "uri" (VString (URL_String (Req_URL r))).

(** [m.IsAuthorizedFunc], or [m.DefaultIsAuthorized] when it is nil. *)
Definition isAuthorized (m : ServiceProviderMiddleware) (now : Z) : Request → outcome (bool * Request) :=
  match IsAuthorizedFunc m with
  | Some f => f
  | None => DefaultIsAuthorized m now
  end.

(** [RequireAccountMiddleware(handler)] applied to a request. *)
Definition RequireAccountMiddleware (m : ServiceProviderMiddleware) (now : Z)
    (handler : Request → outcome (list Event)) (r : Request) : outcome (list Event) :=
  match isAuthorized m now r with
  | Panic msg => Panic msg
  | Ret (true, r) => handler r
  | Ret (false, r) =>
  let sp := MW_ServiceProvider m in
  secretBytes ← deref (pem_Decode (SP_Key sp));
  match SignedString (relay_state_token r) secretBytes with
  | Err e => Panic e
  | Ok signedRelayState =>
      match SP_MakeRedirectAuthenticationRequest sp signedRelayState with
      | Err e => Ret [EvError StatusInternalServerError e]
      | Ok redirectURL =>
          acsURL ← deref (url_Parse (SP_AcsURL sp));
          if String.eqb (URL_Path (Req_URL r)) (URL_Path acsURL)
          then Panic "don't wrap ServiceProviderMiddleware with RequireAccountMiddleware"
          else Ret [EvRedirect (URL_String redirectURL) StatusFound]
      end
  end
  end.

(** The claims of the session token: one per attribute, then [exp]. *)
Definition session_claims (attrs : list AssertionAttribute) (issued : Z) : gmap string value :=
  <["exp" := VInt64 (issued + cookieMaxAge)]>
    (foldl (λ cl a, <[FriendlyName a := VString (Value a)]> cl) ∅ attrs).

Definition session_token (attrs : list AssertionAttribute) (issued : Z) : Token :=
  with_claims (New HS256) (session_claims attrs issued).

(** The key function of the relay-state check: the block decoded before. *)
Definition relay_keyfunc (secretBlock : option string) (_ : Token) : outcome string :=
  deref secretBlock.

(** [DefaultAuthorizeFunc(w, r, assertionAttributes)], with [now] for
    [jwt.Parse] and [issued] for [timeNow()]. *)
Definition DefaultAuthorizeFunc (m : ServiceProviderMiddleware) (now issued : Z)
    (r : Request) (attrs : list AssertionAttribute) : outcome (list Event) :=
  let secretBlock := pem_Decode (SP_Key (MW_ServiceProvider m)) in
  let rs := Values_Get (Req_Form r) "RelayState" in
  redirect ← (if nonempty rs then
                res ← Parse now rs (relay_keyfunc secretBlock);
                match res with
                | Err _ => Ret None
                | Ok relayState =>
                    match Token_Claims relayState !! "uri" with
                    | Some (VString u) => Ret (Some u)
                    | _ => Panic "interface conversion: interface {} is not string"
                    end
                end
              else Ret (Some "/"));
  match redirect with
  | None => Ret [EvError StatusForbidden "Forbidden"]
  | Some redirectURI =>
      secretBytes ← deref secretBlock;
      match SignedString (session_token attrs issued) secretBytes with
      | Err e => Panic e
      | Ok signedToken =>
          Ret [EvSetCookie {| Cookie_Name := cookieName; Cookie_Value := signedToken;
                              Cookie_MaxAge := cookieMaxAge; Cookie_HttpOnly := false;
                              Cookie_Path := "/" |};
               EvRedirect redirectURI StatusFound]
      end
  end.

End Middleware.

(** ** ServeHTTP and RequireAttribute *)

Definition StatusNotFound : Z := 404.

(** What [ServeHTTP] writes: the bytes of [w.Write(buf)], or the events of
    [http.Error] or of the authorize function. *)
Inductive Response :=
| RespBody (buf : string)
| RespEvents (evs : list Event).

Section Serve.
Context `{GoLib}.

(** [ServeHTTP(w, r)], with [r] the request after [r.ParseForm()].  Two
    methods of [ServiceProvider] are not among the sources and are taken as
    they come: [metadata] is the buffer of
    [xml.MarshalIndent(m.ServiceProvider.Metadata(), "", "  ")], and
    [ParseResponse r] is [m.ServiceProvider.ParseResponse(r, "")] (the
    logging of an [InvalidResponseError] writes nothing to [w]).  A failed
    [url.Parse] leaves a nil [*url.URL] whose [.Path] is dereferenced. *)
Definition ServeHTTP (m : ServiceProviderMiddleware) (now issued : Z) (metadata : string)
    (ParseResponse : Request → result (list AssertionAttribute)) (r : Request)
    : outcome Response :=
  metadataURL ← deref (url_Parse (SP_MetadataURL (MW_ServiceProvider m)));
  if String.eqb (URL_Path (Req_URL r)) (URL_Path metadataURL)
  then Ret (RespBody metadata)
  else
    acsURL ← deref (url_Parse (SP_AcsURL (MW_ServiceProvider m)));
    if String.eqb (URL_Path (Req_URL r)) (URL_Path acsURL)
    then
      match ParseResponse r with
      | Err _ => Ret (RespEvents [EvError StatusForbidden "Forbidden"])
      | Ok assertionAttributes =>
          let authorizeFunc :=
            match AuthorizeFunc m with
            | Some f => f
            | None => DefaultAuthorizeFunc m now issued
            end in
          evs ← authorizeFunc r assertionAttributes;
          Ret (RespEvents evs)
      end
    else Ret (RespEvents [EvError StatusNotFound "404 page not found"]).

End Serve.

(** [RequireAttribute(name, value)(handler)] applied to a request:
    [r.Header[http.CanonicalHeaderKey(fmt.Sprintf("X-Saml-%s", name))]],
    then the [range] over the values. *)
Definition RequireAttribute (name value : string) (handler : Request → outcome (list Event))
    (r : Request) : outcome (list Event) :=
  match Req_Header r !! CanonicalMIMEHeaderKey ("X-Saml-" +:+ name) with
  | Some values =>
      if existsb (λ actualValue, String.eqb actualValue value) values
      then handler r
      else Ret [EvError StatusForbidden "Forbidden"]
  | None => Ret [EvError StatusForbidden "Forbidden"]
  end.

(** ** An executable instance of the primitives

    Used to evaluate the statements on concrete requests.  Segments escape
    ['.']; "JSON" is the binary spelling of the [Countable] code of the
    re-read map; the "HMAC" concatenates its inputs. *)
Module Toy.

Fixpoint esc (s : string) : string :=
  match s with
  | EmptyString => EmptyString
  | String c s' =>
      if ascii_eqb c "."%char then String "\"%char (String "d"%char (esc s'))
      else if ascii_eqb c "\"%char then String "\"%char (String "\"%char (esc s'))
      else String c (esc s')
  end.

Fixpoint unesc (s : string) : option string :=
  match s with
  | EmptyString => Some EmptyString
  | String c s' =>
      if ascii_eqb c "\"%char then
        match s' with
        | String d s'' =>
            if ascii_eqb d "d"%char then String "."%char <$> unesc s''
            else if ascii_eqb d "\"%char then String "\"%char <$> unesc s''
            else None
        | EmptyString => None
        end
      else if ascii_eqb c "."%char then None
      else String c <$> unesc s'
  end.

Fixpoint pos_bits (p : positive) : string :=
  match p with
  | xI p => String "1"%char (pos_bits p)
  | xO p => String "0"%char (pos_bits p)
  | xH => EmptyString
  end.

Fixpoint bits_pos (s : string) : option positive :=
  match s with
  | EmptyString => Some xH
  | String c s' =>
      if ascii_eqb c "1"%char then xI <$> bits_pos s'
      else if ascii_eqb c "0"%char then xO <$> bits_pos s'
      else None
  end.

Definition cookie_of (h : gmap string (list string)) (name : string) : option string :=
  match h !! "Cookie" with
  | Some (v :: _) =>
      if String.prefix (name +:+ "=") v
      then Some (String.substring (String.length name + 1) (String.length v) v)
      else None
  | _ => None
  end.

(** What [url.ParseRequestURI] makes of the origin-form [p?q] (and the toy
    [url.Parse] of a bare path): [setPath] stores the decoded path and keeps
    [p] as [RawPath] when it is not the default encoding. *)
Definition path_url (p q : string) : URL :=
  let path := match unescape p encodePath with Some d => d | None => p end in
  {| URL_Scheme := ""; URL_Opaque := ""; URL_User := None; URL_Host := "";
     URL_Path := path;
     URL_RawPath := if String.eqb p (escape path encodePath) then "" else p;
     URL_ForceQuery := false; URL_RawQuery := q; URL_Fragment := "" |}.

#[export] Instance lib : GoLib := {|
  EncodeSegment := esc;
  DecodeSegment := unesc;
  json_Marshal := λ m, pos_bits (encode (json_reread <$> m));
  json_Unmarshal := λ s, bits_pos s ≫= decode;
  hmac_Sum := λ h k s, hash_bits h +:+ ":" +:+ k +:+ ":" +:+ s;
  pem_Decode := λ s, if nonempty s then Some s else None;
  url_Parse := λ s, match unescape s encodePath with
                    | Some _ => Some (path_url s "")
                    | None => None
                    end;
  readCookie := cookie_of
|}.

Lemma unesc_esc s : unesc (esc s) = Some s.
Proof.
  induction s as [|c s IH]; [done|]. cbn [esc]. unfold ascii_eqb.
  destruct (Ascii.eqb_spec c "."%char) as [->|Hd]; [cbn; by rewrite IH|].
  destruct (Ascii.eqb_spec c "\"%char) as [->|Hb]; [cbn; by rewrite IH|].
  cbn [unesc]. unfold ascii_eqb.
  destruct (Ascii.eqb_spec c "\"%char); [done|].
  destruct (Ascii.eqb_spec c "."%char); [done|]. by rewrite IH.
Qed.

Lemma esc_no_dot s : has_dot (esc s) = false.
Proof.
  induction s as [|c s IH]; [done|]. cbn [esc]. unfold ascii_eqb.
  destruct (Ascii.eqb_spec c "."%char) as [->|Hd]; [exact IH|].
  destruct (Ascii.eqb_spec c "\"%char) as [->|Hb]; [exact IH|].
  cbn [has_dot]. unfold ascii_eqb.
  destruct (Ascii.eqb_spec c "."%char); [done|]. exact IH.
Qed.

Lemma bits_pos_bits p : bits_pos (pos_bits p) = Some p.
Proof. induction p as [p IH|p IH|]; simpl; try rewrite IH; done. Qed.

#[export] Instance laws : GoLibLaws.
Proof.
  split.
  - exact unesc_esc.
  - exact esc_no_dot.
  - intros m _. simpl. rewrite bits_pos_bits. simpl. apply decode_encode.
Qed.

(** Concrete middlewares and requests for the examples. *)
Definition idp_url (rs : string) : URL :=
  {| URL_Scheme := "https"; URL_Opaque := ""; URL_User := None;
     URL_Host := "idp.example.com"; URL_Path := "/sso"; URL_RawPath := "";
     URL_ForceQuery := false; URL_RawQuery := "RelayState=" +:+ rs; URL_Fragment := "" |}.

Definition sp_ok : ServiceProvider :=
  {| SP_Key := "secret"; SP_MetadataURL := "/saml/metadata"; SP_AcsURL := "/saml/acs";
     SP_MakeRedirectAuthenticationRequest := λ rs, Ok (idp_url rs) |}.

Definition sp_fail : ServiceProvider :=
  {| SP_Key := "secret"; SP_MetadataURL := "/saml/metadata"; SP_AcsURL := "/saml/acs";
     SP_MakeRedirectAuthenticationRequest := λ _, Err "cannot find an IDP SSO endpoint" |}.

Definition mw (sp : ServiceProvider) : ServiceProviderMiddleware :=
  {| MW_ServiceProvider := sp; IsAuthorizedFunc := None; AuthorizeFunc := None |}.

Definition req (u : URL) (h form : gmap string (list string)) : Request :=
  {| Req_URL := u; Req_Header := h; Req_Form := form |}.

Definition cookie_header (tok : string) : gmap string (list string) :=
  {["Cookie" := ["token=" +:+ tok]]}.

Definition signed (t : Token) : string :=
  match SignedString t "secret" with Ok s => s | Err e => e end.

Definition alice : list AssertionAttribute :=
  [{| FriendlyName := "uid"; Value := "alice@example.com" |}].

(** The session token issued for [alice] at time 1000, and its cookie. *)
Definition alice_claims : gmap string value := session_claims alice 1000.

Definition alice_cookie : string := signed (session_token alice 1000).

Definition alice_session_cookie : Cookie :=
  {| Cookie_Name := cookieName; Cookie_Value := alice_cookie;
     Cookie_MaxAge := cookieMaxAge; Cookie_HttpOnly := false; Cookie_Path := "/" |}.

(** A token signed with the secret under HS512 instead of HS256. *)
Definition hs512_token : string :=
  signed (with_claims (New (SigningMethodHMAC SHA512)) {["uid" := VString "mallory"]}).

(** A token whose claims [uid] and [UID] differ only in case. *)
Definition uid_collision_token : string :=
  signed (with_claims (New HS256)
            (<["uid" := VString "alice"]> {["UID" := VString "mallory"]})).

(** A relay state without a [uri] claim. *)
Definition no_uri_token : string :=
  signed (with_claims (New HS256) {["foo" := VString "bar"]}).

(** A signed token whose [exp] is 0. *)
Definition expired_token : string :=
  signed (with_claims (New HS256) {["exp" := VInt64 0]}).

(** A signed token with an integer claim. *)
Definition int_claim_token : string :=
  signed (with_claims (New HS256) {["n" := VInt64 5]}).

Definition handler : Request → outcome (list Event) := λ _, Ret [].

(** Inputs of the further examples. *)
(** The token DefaultIsAuthorized verifies from [alice_cookie] at time 2000. *)
Definition alice_parsed : Token := Eval vm_compute in
  match Parse 2000 alice_cookie (session_keyfunc (mw sp_ok)) with Ret (Ok t) => t | _ => New HS256 end.

Definition alice_request : Request := req (path_url "/protected" "x=1") (cookie_header alice_cookie) ∅.

(** [alice_request] as DefaultIsAuthorized returns it at time 2000. *)
Definition alice_authorized : Request := Eval vm_compute in
  match DefaultIsAuthorized map_to_list (mw sp_ok) 2000 alice_request with
  | Ret (_, r) => r | Panic _ => alice_request end.

(** A service provider whose key is not PEM. *)
Definition sp_nokey : ServiceProvider :=
  {| SP_Key := ""; SP_MetadataURL := "/saml/metadata"; SP_AcsURL := "/saml/acs";
     SP_MakeRedirectAuthenticationRequest := λ rs, Ok (idp_url rs) |}.

(** A metadata buffer and two outcomes of ParseResponse. *)
Definition metadata : string := "<EntityDescriptor/>".
Definition parse_ok : Request → result (list AssertionAttribute) := λ _, Ok alice.
Definition parse_fail : Request → result (list AssertionAttribute) := λ _, Err "invalid response".

Definition protected_request : Request := req (path_url "/protected" "x=1") ∅ ∅.
Definition acs_post (rs : string) : Request :=
  req (path_url "/saml/acs" "") ∅ {["RelayState" := [rs]]}.

(** The same primitives, except that url.Parse fails on "%zz". *)
Definition lib_badurl : GoLib := {|
  EncodeSegment := esc; DecodeSegment := unesc;
  json_Marshal := λ m, pos_bits (encode (json_reread <$> m));
  json_Unmarshal := λ s, bits_pos s ≫= decode;
  hmac_Sum := λ h k s, hash_bits h +:+ ":" +:+ k +:+ ":" +:+ s;
  pem_Decode := λ s, if nonempty s then Some s else None;
  url_Parse := λ s, if String.eqb s "%zz" then None else Some (path_url s "");
  readCookie := cookie_of
|}.

Definition sp_badurl : ServiceProvider :=
  {| SP_Key := "secret"; SP_MetadataURL := "%zz"; SP_AcsURL := "/saml/acs";
     SP_MakeRedirectAuthenticationRequest := λ rs, Ok (idp_url rs) |}.

End Toy.

(** * General lemmas *)

Section Lemmas.
Context `{GoLib}.

(* stdpp declares [String.append] as [simpl never]; its two equations: *)
Lemma append_nil (b : string) : "" +:+ b = b.
Proof. reflexivity. Qed.
Lemma append_cons x (a b : string) : String x a +:+ b = String x (a +:+ b).
Proof. reflexivity. Qed.

Lemma append_assoc (a b c : string) : (a +:+ b) +:+ c = a +:+ (b +:+ c).
Proof. induction a as [|x a IH]; [done|]. by rewrite !append_cons, IH. Qed.

Lemma split_dot_app a b :
  has_dot a = false → split_dot (a +:+ "." +:+ b) = a :: split_dot b.
Proof.
  induction a as [|c a IH]; intros Ha; [done|].
  simpl in Ha. apply orb_false_iff in Ha as [Hc Ha].
  rewrite append_cons. cbn [split_dot]. rewrite Hc, (IH Ha). done.
Qed.

Lemma split_dot_single a : has_dot a = false → split_dot a = [a].
Proof.
  induction a as [|c a IH]; intros Ha; [done|].
  simpl in Ha. apply orb_false_iff in Ha as [Hc Ha].
  cbn [split_dot]. rewrite Hc, (IH Ha). done.
Qed.

Lemma GetSigningMethod_Alg m : GetSigningMethod (Alg m) = Some m.
Proof. by destruct m as [[]|[]|[]|[]|]. Qed.

Lemma GetSigningMethod_Some alg m : GetSigningMethod alg = Some m → Alg m = alg.
Proof.
  unfold GetSigningMethod. intros Hf. apply find_some in Hf as [_ Hf].
  by apply String.eqb_eq.
Qed.

Lemma Verify_Ok m ss sig key u :
  Verify m ss sig key = Ok u →
  ∃ h, m = SigningMethodHMAC h ∧ DecodeSegment sig = Some (hmac_Sum h key ss).
Proof.
  destruct m as [h|h|h|h|]; simpl; try discriminate.
  destruct (DecodeSegment sig) as [d|]; [|discriminate].
  destruct (String.eqb_spec d (hmac_Sum h key ss)) as [->|]; [|discriminate].
  intros _. by exists h.
Qed.

(** A token accepted under [key]: three segments, an HMAC method named by
    the header's [alg], and a third segment that is the HMAC of the first
    two under that method and [key]. *)
Definition hmac_signed (key s : string) (t : Token) : Prop :=
  ∃ h p0 p1 p2,
    split_dot s = [p0; p1; p2] ∧
    Token_Method t = SigningMethodHMAC h ∧
    Token_Header t !! "alg" = Some (VString (Alg (SigningMethodHMAC h))) ∧
    DecodeSegment p2 = Some (hmac_Sum h key (join_dot p0 p1)).

Lemma Parse_Ok_inv now s kf t :
  Parse now s kf = Ret (Ok t) →
  ∃ key, kf t = Ret key ∧ hmac_signed key s t ∧
         expired now (Token_Claims t) = false ∧ not_yet_valid now (Token_Claims t) = false.
Proof.
  unfold Parse.
  destruct (split_dot s) as [|p0 [|p1 [|p2 [|]]]] eqn:Hs; try discriminate.
  destruct (DecodeSegment p0 ≫= json_Unmarshal) as [header|]; [|discriminate].
  destruct (DecodeSegment p1 ≫= json_Unmarshal) as [claims|]; [|discriminate].
  destruct (header !! "alg") as [[alg| | |]|] eqn:Halg; try discriminate.
  destruct (GetSigningMethod alg) as [method|] eqn:Hm; [|discriminate].
  match goal with |- context [kf ?tk] => destruct (kf tk) as [key|] eqn:Hk end;
    [|discriminate].
  cbn [mbind outcome_bind].
  destruct (expired now claims) eqn:He, (not_yet_valid now claims) eqn:Hn,
    (Verify method (join_dot p0 p1) p2 key) as [u|] eqn:Hv; simpl; try discriminate.
  intros [= <-]. exists key. split; [done|]. split; [|done].
  apply Verify_Ok in Hv as (h & -> & Hd).
  apply GetSigningMethod_Some in Hm. subst alg.
  exists h, p0, p1, p2. done.
Qed.

End Lemmas.

Section LawLemmas.
Context `{GoLibLaws}.

Lemma Verify_Sign h key ss :
  Verify (SigningMethodHMAC h) ss (EncodeSegment (hmac_Sum h key ss)) key = Ok tt.
Proof. simpl. rewrite DecodeSegment_EncodeSegment. by rewrite String.eqb_refl. Qed.

(** Parsing what [SignedString] produced with an HMAC method. *)
Lemma Parse_SignedString now t key tok kf h :
  Token_Method t = SigningMethodHMAC h →
  json_text (Token_Header t) = true → json_text (Token_Claims t) = true →
  Token_Header t !! "alg" = Some (VString (Alg (SigningMethodHMAC h))) →
  SignedString t key = Ok tok →
  (∀ t', kf t' = Ret key) →
  Parse now tok kf =
    Ret (if negb (expired now (json_reread <$> Token_Claims t)) &&
            negb (not_yet_valid now (json_reread <$> Token_Claims t))
         then Ok {| Token_Raw := tok; Token_Method := SigningMethodHMAC h;
                    Token_Header := json_reread <$> Token_Header t;
                    Token_Claims := json_reread <$> Token_Claims t;
                    Token_Signature := EncodeSegment (hmac_Sum h key (SigningString t)) |}
         else Err "token is invalid").
Proof.
  intros Hm Hh Hc Halg Hs Hk.
  unfold SignedString in Hs. rewrite Hm in Hs. simpl in Hs. injection Hs as <-.
  unfold Parse. unfold join_dot at 1. unfold SigningString at 1. unfold join_dot at 1.
  rewrite !append_assoc, !split_dot_app, split_dot_single by apply EncodeSegment_no_dot.
  rewrite !DecodeSegment_EncodeSegment. simpl.
  rewrite (json_roundtrip _ Hh), (json_roundtrip _ Hc). simpl.
  rewrite lookup_fmap, Halg.
  change (json_reread <$> Some (VString (Alg (SigningMethodHMAC h))))
    with (Some (VString (Alg (SigningMethodHMAC h)))).
  cbv iota. rewrite GetSigningMethod_Alg.
  rewrite Hk. cbn [mbind outcome_bind].
  fold (SigningString t). rewrite Verify_Sign. simpl.
  by destruct (negb _ && negb _).
Qed.

End LawLemmas.

Section HeaderLemmas.
Context `{GoLib}.

Definition saml_key (n : string) : string := CanonicalMIMEHeaderKey ("X-Saml-" +:+ n).

Lemma copy_claims_cons h n v l :
  copy_claims h ((n, v) :: l) =
  copy_claims (match v with VString c => Header_Set h ("X-Saml-" +:+ n) c | _ => h end) l.
Proof. reflexivity. Qed.

(** Each header key after the copy is either untouched or holds the value
    of a string claim whose header key it is. *)
Lemma copy_claims_cases h l k :
  copy_claims h l !! k = h !! k ∨
  ∃ n v, (n, VString v) ∈ l ∧ k = saml_key n ∧ copy_claims h l !! k = Some [v].
Proof.
  induction l as [|[n v] l IH] in h |- *; [by left|].
  rewrite copy_claims_cons.
  destruct (IH (match v with VString c => Header_Set h ("X-Saml-" +:+ n) c | _ => h end))
    as [E|(n' & v' & Hin & -> & E)].
  - rewrite E. destruct v as [c| | |]; try by left.
    unfold Header_Set. destruct (decide (saml_key n = k)) as [<-|Hne].
    + right. exists n, c. rewrite lookup_insert_eq. split; [|done].
      apply elem_of_cons. by left.
    + left. by rewrite lookup_insert_ne.
  - right. exists n', v'. split; [|done]. apply elem_of_cons. by right.
Qed.

Lemma copy_claims_keep h l K v :
  h !! K = Some [v] →
  (∀ n' v', (n', VString v') ∈ l → saml_key n' = K → v' = v) →
  copy_claims h l !! K = Some [v].
Proof.
  induction l as [|[n w] l IH] in h |- *; intros Hh Hl; [done|].
  rewrite copy_claims_cons. apply IH.
  - destruct w as [c| | |]; try done.
    unfold Header_Set. destruct (decide (saml_key n = K)) as [<-|Hne].
    + rewrite lookup_insert_eq. f_equal. f_equal.
      eapply Hl; [apply elem_of_cons; by left|done].
    + by rewrite lookup_insert_ne.
  - intros n' v' Hin. apply Hl. apply elem_of_cons. by right.
Qed.

Lemma copy_claims_hit h l n v :
  (n, VString v) ∈ l →
  (∀ n' v', (n', VString v') ∈ l → saml_key n' = saml_key n → v' = v) →
  copy_claims h l !! saml_key n = Some [v].
Proof.
  induction l as [|[n0 w] l IH] in h |- *; intros Hin Hl; [by apply elem_of_nil in Hin|].
  rewrite copy_claims_cons. apply elem_of_cons in Hin as [[= <- <-]|Hin].
  - apply copy_claims_keep.
    + unfold Header_Set. by rewrite lookup_insert_eq.
    + intros n' v' Hin' Hk. eapply Hl; [apply elem_of_cons; by right|done].
  - apply IH; [done|]. intros n' v' Hin'. apply Hl. apply elem_of_cons. by right.
Qed.

Lemma range_elem (range_claims : gmap string value → list (string * value))
    (cl : gmap string value) n v :
  (∀ m, range_claims m ≡ₚ map_to_list m) →
  (n, v) ∈ range_claims cl ↔ cl !! n = Some v.
Proof. intros Hp. rewrite (Hp cl). apply elem_of_map_to_list. Qed.

End HeaderLemmas.

(** * Lemmas on expiry and on the HMAC headers *)

Lemma expired_reread now (C : gmap string value) :
  (∀ e, C !! "exp" = Some (VInt64 e) ∨ C !! "exp" = Some (VFloat64 e) → now ≤ e) →
  expired now (json_reread <$> C) = false.
Proof.
  intros He. unfold expired. rewrite lookup_fmap.
  destruct (C !! "exp") as [[s|z|z|b]|] eqn:E; simpl; try done;
    rewrite Z.gtb_ltb; apply Z.ltb_ge; apply He; auto.
Qed.

Lemma not_yet_valid_reread now (C : gmap string value) :
  (∀ e, C !! "nbf" = Some (VInt64 e) ∨ C !! "nbf" = Some (VFloat64 e) → e ≤ now) →
  not_yet_valid now (json_reread <$> C) = false.
Proof.
  intros Hn. unfold not_yet_valid. rewrite lookup_fmap.
  destruct (C !! "nbf") as [[s|z|z|b]|] eqn:E; simpl; try done;
    apply Z.ltb_ge; apply Hn; auto.
Qed.

Lemma header_text_hmac h : json_text (Token_Header (New (SigningMethodHMAC h))) = true.
Proof. destruct h; vm_compute; reflexivity. Qed.

Lemma header_alg_hmac h :
  Token_Header (New (SigningMethodHMAC h)) !! "alg" = Some (VString (Alg (SigningMethodHMAC h))).
Proof. destruct h; vm_compute; reflexivity. Qed.

(** * The claims *)

(** ** C2 *)

(** C2 (a defect of the code).  The check for inbound X-Saml headers runs
    only once the session cookie has verified: with such a header present,
    DefaultIsAuthorized returns false and leaves the request alone when the
    cookie is absent or fails verification, and panics only when it
    verifies, whereas its doc comment (and the spec) say that any such
    request aborts. *)
Theorem C2_prefix_check_after_verification `{GoLib} range_claims m now r :
  has_prefix_header (Req_Header r) = true →
  (readCookie (Req_Header r) cookieName = None →
     DefaultIsAuthorized range_claims m now r = Ret (false, r)) ∧
  (∀ c e, readCookie (Req_Header r) cookieName = Some c →
     Parse now c (session_keyfunc m) = Ret (Err e) →
     DefaultIsAuthorized range_claims m now r = Ret (false, r)) ∧
  (∀ c t, readCookie (Req_Header r) cookieName = Some c →
     Parse now c (session_keyfunc m) = Ret (Ok t) →
     ∃ msg, DefaultIsAuthorized range_claims m now r = Panic msg).
Proof.
  intros Hp. unfold DefaultIsAuthorized. split; [|split].
  - by intros ->.
  - intros c e -> Hparse. by rewrite Hparse.
  - intros c t -> Hparse. rewrite Hparse. simpl. rewrite Hp. by eexists.
Qed.

(** ** C9 *)

(** C9.  Whenever DefaultIsAuthorized answers false, the request, and so its
    header map, is returned unchanged: no X-Saml header is added on a
    failure path. *)
Theorem C9_false_leaves_request `{GoLib} range_claims m now r r' :
  DefaultIsAuthorized range_claims m now r = Ret (false, r') → r' = r.
Proof.
  unfold DefaultIsAuthorized.
  destruct (readCookie (Req_Header r) cookieName) as [c|]; [|by intros [= ->]].
  destruct (Parse now c (session_keyfunc m)) as [[t|e]|msg]; simpl; try discriminate.
  - destruct (has_prefix_header (Req_Header r)); discriminate.
  - by intros [= ->].
Qed.

(** ** C5 *)

(** C5 (amended).  When the session cookie verifies and no inbound header
    bears the X-Saml prefix, DefaultIsAuthorized returns true; the URL and
    form are unchanged; for every string claim [n = v] such that every
    string claim with the same canonical header key has value [v], the
    header under [CanonicalMIMEHeaderKey("X-Saml-" + n)] is [[v]]; and every
    header that changed is such a canonical key of a string claim and holds
    that claim's value (so non-string claims, [exp] among them, add nothing).
    Claims whose keys coincide (e.g. "uid" and "UID") share one header.
    With a verified cookie and an inbound X-Saml header, it panics. *)
Theorem C5_string_claims_copied `{GoLib} range_claims m now r c t :
  (∀ cl, range_claims cl ≡ₚ map_to_list cl) →
  readCookie (Req_Header r) cookieName = Some c →
  Parse now c (session_keyfunc m) = Ret (Ok t) →
  (has_prefix_header (Req_Header r) = true →
     ∃ msg, DefaultIsAuthorized range_claims m now r = Panic msg) ∧
  (has_prefix_header (Req_Header r) = false →
  ∃ r', DefaultIsAuthorized range_claims m now r = Ret (true, r') ∧
    Req_URL r' = Req_URL r ∧ Req_Form r' = Req_Form r ∧
    (∀ n v, Token_Claims t !! n = Some (VString v) →
       (∀ n' v', Token_Claims t !! n' = Some (VString v') → saml_key n' = saml_key n → v' = v) →
       Req_Header r' !! saml_key n = Some [v]) ∧
    (∀ k, Req_Header r' !! k ≠ Req_Header r !! k →
       ∃ n v, Token_Claims t !! n = Some (VString v) ∧ k = saml_key n ∧
              Req_Header r' !! k = Some [v])).
Proof.
  intros Hp Hc Hparse. unfold DefaultIsAuthorized. rewrite Hc, Hparse. simpl.
  split; [intros ->; by eexists|]. intros Hh. rewrite Hh.
  eexists. split; [done|]. split; [done|]. split; [done|]. cbn [Req_Header with_header].
  split.
  - intros n v Hn Hu. apply copy_claims_hit.
    + by apply (range_elem range_claims).
    + intros n' v' Hin. apply Hu. by apply (range_elem range_claims) in Hin.
  - intros k Hk. destruct (copy_claims_cases (Req_Header r) (range_claims (Token_Claims t)) k)
      as [E|(n & v & Hin & -> & E)]; [done|].
    exists n, v. split; [|done]. by apply (range_elem range_claims) in Hin.
Qed.

(** ** C1 *)

(** C1 (amended).  A token accepted by the session-cookie verification of
    DefaultIsAuthorized or by the relay-state verification of
    DefaultAuthorizeFunc names in its header one of the HMAC algorithms
    (HS256, HS384 or HS512), and its third segment is the HMAC, under that
    algorithm and the process secret, of its first two segments; so a token
    with no [alg], an unregistered one, "none", or an RSA, RSA-PSS or ECDSA
    algorithm is never accepted.  HS256 is not pinned: a token that
    [SignedString] makes with the secret under any of HS256, HS384 and
    HS512, from JSON-text claims whose numeric [exp] is not before and whose
    numeric [nbf] is not after the verification time, is accepted by both
    verifications. *)
Theorem C1_accepted_tokens_are_hmac `{GoLibLaws} m secretBlock now s t :
  (Parse now s (session_keyfunc m) = Ret (Ok t) →
     ∃ key, pem_Decode (SP_Key (MW_ServiceProvider m)) = Some key ∧ hmac_signed key s t) ∧
  (Parse now s (relay_keyfunc secretBlock) = Ret (Ok t) →
     ∃ key, secretBlock = Some key ∧ hmac_signed key s t) ∧
  (∀ h key C, json_text C = true →
     (∀ e, C !! "exp" = Some (VInt64 e) ∨ C !! "exp" = Some (VFloat64 e) → now ≤ e) →
     (∀ e, C !! "nbf" = Some (VInt64 e) ∨ C !! "nbf" = Some (VFloat64 e) → e ≤ now) →
     ∃ tok, SignedString (with_claims (New (SigningMethodHMAC h)) C) key = Ok tok ∧
       (pem_Decode (SP_Key (MW_ServiceProvider m)) = Some key →
          ∃ t', Parse now tok (session_keyfunc m) = Ret (Ok t')) ∧
       (secretBlock = Some key →
          ∃ t', Parse now tok (relay_keyfunc secretBlock) = Ret (Ok t'))).
Proof.
  split; [|split].
  - intros Hp. apply Parse_Ok_inv in Hp as (key & Hk & Hs & _).
    exists key. split; [|done]. unfold session_keyfunc, deref in Hk.
    destruct (pem_Decode (SP_Key (MW_ServiceProvider m))); [by injection Hk as ->|discriminate].
  - intros Hp. apply Parse_Ok_inv in Hp as (key & Hk & Hs & _).
    exists key. split; [|done]. unfold relay_keyfunc, deref in Hk.
    destruct secretBlock; [by injection Hk as ->|discriminate].
  - intros h key C Ht He Hn. eexists. split; [reflexivity|]. split.
    + intros Hkey.
      erewrite (Parse_SignedString now (with_claims (New (SigningMethodHMAC h)) C) key _ _ h);
        [| reflexivity | apply header_text_hmac | exact Ht | apply header_alg_hmac
         | reflexivity | intros; unfold session_keyfunc; by rewrite Hkey].
      cbn [Token_Claims with_claims].
      rewrite (expired_reread now C He), (not_yet_valid_reread now C Hn). simpl. by eexists.
    + intros ->.
      erewrite (Parse_SignedString now (with_claims (New (SigningMethodHMAC h)) C) key _ _ h);
        [| reflexivity | apply header_text_hmac | exact Ht | apply header_alg_hmac
         | reflexivity | intros; reflexivity].
      cbn [Token_Claims with_claims].
      rewrite (expired_reread now C He), (not_yet_valid_reread now C Hn). simpl. by eexists.
Qed.

(** ** C3 *)

Lemma SignedString_HS256 `{GoLib} attrs issued key :
  SignedString (session_token attrs issued) key =
  Ok (join_dot (SigningString (session_token attrs issued))
               (EncodeSegment (hmac_Sum SHA256 key (SigningString (session_token attrs issued))))).
Proof. reflexivity. Qed.

(** C3.  In DefaultAuthorizeFunc, a non-empty RelayState that fails
    verification yields exactly a 403 Forbidden: no cookie, no redirect.
    With no RelayState parameter at all, the only response the function
    can give is the session cookie followed by a 302 to "/", and it gives
    it whenever the key decodes. *)
Theorem C3_relay_state_forbidden_or_root `{GoLib} m now issued r attrs :
  (nonempty (Values_Get (Req_Form r) "RelayState") = true →
   ∀ e, Parse now (Values_Get (Req_Form r) "RelayState")
          (relay_keyfunc (pem_Decode (SP_Key (MW_ServiceProvider m)))) = Ret (Err e) →
   DefaultAuthorizeFunc m now issued r attrs = Ret [EvError StatusForbidden "Forbidden"]) ∧
  (Req_Form r !! "RelayState" = None →
   (∀ evs, DefaultAuthorizeFunc m now issued r attrs = Ret evs →
      ∃ c, evs = [EvSetCookie c; EvRedirect "/" StatusFound]) ∧
   (∀ key, pem_Decode (SP_Key (MW_ServiceProvider m)) = Some key →
      ∃ c, DefaultAuthorizeFunc m now issued r attrs = Ret [EvSetCookie c; EvRedirect "/" StatusFound])).
Proof.
  unfold DefaultAuthorizeFunc. split.
  - intros Hne e Hp. rewrite Hne, Hp. done.
  - intros Hnone.
    assert (Hrs : Values_Get (Req_Form r) "RelayState" = "")
      by (unfold Values_Get; by rewrite Hnone).
    rewrite Hrs. cbn [nonempty negb String.eqb mbind outcome_bind].
    split.
    + destruct (pem_Decode (SP_Key (MW_ServiceProvider m))) as [key|];
        cbn [mbind outcome_bind deref nil_deref]; [|intros ? [=]].
      rewrite SignedString_HS256. intros evs [= <-]. by eexists.
    + intros key ->. cbn [mbind outcome_bind deref]. rewrite SignedString_HS256. eexists. reflexivity.
Qed.

(** ** C10 *)

(** C10.  A RelayState that verifies but has no string [uri] claim makes
    DefaultAuthorizeFunc panic (the type assertion [.(string)] fails):
    neither a 403 nor a redirect. *)
Theorem C10_relay_state_without_uri_panics `{GoLib} m now issued r attrs t :
  nonempty (Values_Get (Req_Form r) "RelayState") = true →
  Parse now (Values_Get (Req_Form r) "RelayState")
    (relay_keyfunc (pem_Decode (SP_Key (MW_ServiceProvider m)))) = Ret (Ok t) →
  (∀ u, Token_Claims t !! "uri" ≠ Some (VString u)) →
  ∃ msg, DefaultAuthorizeFunc m now issued r attrs = Panic msg.
Proof.
  intros Hne Hp Hu. unfold DefaultAuthorizeFunc. rewrite Hne, Hp. simpl.
  destruct (Token_Claims t !! "uri") as [[u| | |]|] eqn:E; simpl; try by eexists.
  by destruct (Hu u).
Qed.

(** ** C7 *)

(** The responses DefaultAuthorizeFunc can give. *)
Lemma DefaultAuthorizeFunc_Ret `{GoLib} m now issued r attrs evs :
  DefaultAuthorizeFunc m now issued r attrs = Ret evs →
  evs = [EvError StatusForbidden "Forbidden"] ∨
  ∃ key u, pem_Decode (SP_Key (MW_ServiceProvider m)) = Some key ∧
    evs = [EvSetCookie {| Cookie_Name := cookieName;
                          Cookie_Value := join_dot (SigningString (session_token attrs issued))
                            (EncodeSegment (hmac_Sum SHA256 key
                               (SigningString (session_token attrs issued))));
                          Cookie_MaxAge := cookieMaxAge; Cookie_HttpOnly := false;
                          Cookie_Path := "/" |};
           EvRedirect u StatusFound].
Proof.
  intros Hd. unfold DefaultAuthorizeFunc in Hd.
  assert (Hsign : ∀ u,
    (secretBytes ← deref (pem_Decode (SP_Key (MW_ServiceProvider m)));
     match SignedString (session_token attrs issued) secretBytes with
     | Ok signedToken =>
         Ret [EvSetCookie {| Cookie_Name := cookieName; Cookie_Value := signedToken;
                             Cookie_MaxAge := cookieMaxAge; Cookie_HttpOnly := false;
                             Cookie_Path := "/" |};
              EvRedirect u StatusFound]
     | Err e => Panic e
     end) = Ret evs →
    ∃ key u', pem_Decode (SP_Key (MW_ServiceProvider m)) = Some key ∧
      evs = [EvSetCookie {| Cookie_Name := cookieName;
                          Cookie_Value := join_dot (SigningString (session_token attrs issued))
                            (EncodeSegment (hmac_Sum SHA256 key
                               (SigningString (session_token attrs issued))));
                          Cookie_MaxAge := cookieMaxAge; Cookie_HttpOnly := false;
                          Cookie_Path := "/" |};
           EvRedirect u' StatusFound]).
  { intros u Hu. destruct (pem_Decode (SP_Key (MW_ServiceProvider m))) as [key|];
      cbn [mbind outcome_bind deref nil_deref] in Hu; [|discriminate].
    rewrite SignedString_HS256 in Hu. injection Hu as <-. eauto. }
  destruct (nonempty (Values_Get (Req_Form r) "RelayState")).
  - destruct (Parse now (Values_Get (Req_Form r) "RelayState")
                (relay_keyfunc (pem_Decode (SP_Key (MW_ServiceProvider m)))))
      as [[t|e]|msg]; cbn [mbind outcome_bind] in Hd; [| left; by injection Hd as <- | discriminate].
    destruct (Token_Claims t !! "uri") as [[u| | |]|]; cbn [mbind outcome_bind] in Hd;
      try discriminate.
    right. by apply (Hsign u).
  - cbn [mbind outcome_bind] in Hd. right. by apply (Hsign "/").
Qed.

(** C7 (the code's behaviour).  The session lifetime is the constant
    [cookieMaxAge] of one hour: DefaultAuthorizeFunc reads nothing of the
    middleware but its key, so two middlewares with the same key give the
    same response, and every cookie it sets has MaxAge 3600 and carries the
    signed session token whose [exp] is the issuing time plus 3600. *)
Theorem C7_session_lifetime_hardcoded `{GoLib} m1 m2 now issued r attrs :
  SP_Key (MW_ServiceProvider m1) = SP_Key (MW_ServiceProvider m2) →
  DefaultAuthorizeFunc m1 now issued r attrs = DefaultAuthorizeFunc m2 now issued r attrs ∧
  (∀ evs c, DefaultAuthorizeFunc m1 now issued r attrs = Ret evs → EvSetCookie c ∈ evs →
     Cookie_MaxAge c = 3600 ∧
     ∃ key, pem_Decode (SP_Key (MW_ServiceProvider m1)) = Some key ∧
       SignedString (session_token attrs issued) key = Ok (Cookie_Value c) ∧
       Token_Claims (session_token attrs issued) !! "exp" = Some (VInt64 (issued + 3600))).
Proof.
  intros Hk. split; [unfold DefaultAuthorizeFunc; by rewrite Hk|].
  intros evs c Hd Hin.
  apply DefaultAuthorizeFunc_Ret in Hd as [->|(key & u & Hkey & ->)].
  - apply elem_of_cons in Hin as [[=]|Hin]. by apply elem_of_nil in Hin.
  - apply elem_of_cons in Hin as [[= ->]|Hin];
      [|apply elem_of_cons in Hin as [[=]|Hin]; by apply elem_of_nil in Hin].
    split; [done|]. exists key. split; [done|]. split; [apply SignedString_HS256|].
    unfold session_token, session_claims, with_claims. cbn [Token_Claims].
    by rewrite lookup_insert_eq.
Qed.

(** ** C6 *)

Lemma header_text : json_text (Token_Header (New HS256)) = true.
Proof. vm_compute. reflexivity. Qed.

Lemma header_alg : Token_Header (New HS256) !! "alg" = Some (VString (Alg HS256)).
Proof. vm_compute. reflexivity. Qed.

(** C6 (amended).  Encoding a claim set [C] with secret [S] (jwt.New(HS256),
    the claims, SignedString) and then verifying the token with [S]
    succeeds and gives back [C], every int64 number read back as a float64,
    provided [C] is JSON text (well-formed UTF-8 strings, integers within
    2^53) whose numeric [exp], if any, is not before the verification time
    and whose numeric [nbf], if any, is not after it. *)
Theorem C6_roundtrip_unexpired `{GoLibLaws} now (C : gmap string value) S :
  json_text C = true →
  (∀ e, C !! "exp" = Some (VInt64 e) ∨ C !! "exp" = Some (VFloat64 e) → now ≤ e) →
  (∀ e, C !! "nbf" = Some (VInt64 e) ∨ C !! "nbf" = Some (VFloat64 e) → e ≤ now) →
  ∃ tok t, SignedString (with_claims (New HS256) C) S = Ok tok ∧
    Parse now tok (relay_keyfunc (Some S)) = Ret (Ok t) ∧
    Token_Claims t = json_reread <$> C.
Proof.
  intros Ht He Hn. eexists _, _. split; [reflexivity|].
  erewrite (Parse_SignedString now (with_claims (New HS256) C) S _ _ SHA256);
    [| reflexivity | apply header_text | exact Ht | apply header_alg | reflexivity
     | intros; reflexivity].
  cbn [Token_Claims with_claims].
  rewrite (expired_reread now C He), (not_yet_valid_reread now C Hn). simpl.
  split; reflexivity.
Qed.

(** ** C4 *)

Lemma SignedString_relay `{GoLib} r key :
  SignedString (relay_state_token r) key =
  Ok (join_dot (SigningString (relay_state_token r))
               (EncodeSegment (hmac_Sum SHA256 key (SigningString (relay_state_token r))))).
Proof. reflexivity. Qed.

Lemma relay_claims_text r :
  utf8_valid (URL_String (Req_URL r)) = true →
  json_text (Token_Claims (relay_state_token r)) = true.
Proof.
  intros Hu. unfold relay_state_token, set_claim. cbn [Token_Claims New].
  unfold json_text. rewrite insert_empty, map_to_list_singleton. simpl. by rewrite Hu.
Qed.




(** ** C8 *)

(** C8 (amended).  For a request that the middleware does not authorize
    and whose decoded path is that of the ACS URL, RequireAccountMiddleware
    never emits a redirect: it panics with the loop-misconfiguration message when the
    verifier builds a URL, and the only response it can give otherwise is a
    500 with the verifier's error. *)
Theorem C8_acs_path_never_redirects `{GoLib} range_claims m now handler r r' acs :
  isAuthorized range_claims m now r = Ret (false, r') →
  url_Parse (SP_AcsURL (MW_ServiceProvider m)) = Some acs →
  URL_Path (Req_URL r') = URL_Path acs →
  (∀ evs, RequireAccountMiddleware range_claims m now handler r = Ret evs →
     ∃ e, evs = [EvError StatusInternalServerError e]) ∧
  (∀ key u, pem_Decode (SP_Key (MW_ServiceProvider m)) = Some key →
     SP_MakeRedirectAuthenticationRequest (MW_ServiceProvider m)
       (join_dot (SigningString (relay_state_token r'))
          (EncodeSegment (hmac_Sum SHA256 key (SigningString (relay_state_token r'))))) = Ok u →
     RequireAccountMiddleware range_claims m now handler r =
       Panic "don't wrap ServiceProviderMiddleware with RequireAccountMiddleware").
Proof.
  intros Hauth Hacs Hp. unfold RequireAccountMiddleware. rewrite Hauth. split.
  - intros evs.
    destruct (pem_Decode (SP_Key (MW_ServiceProvider m))) as [key|];
      cbn [mbind outcome_bind deref nil_deref]; [|discriminate].
    rewrite SignedString_relay.
    destruct (SP_MakeRedirectAuthenticationRequest (MW_ServiceProvider m) _) as [u|e].
    + rewrite Hacs. cbn [mbind outcome_bind deref]. rewrite Hp, String.eqb_refl. discriminate.
    + intros [= <-]. by exists e.
  - intros key u Hkey Hm. rewrite Hkey. cbn [mbind outcome_bind deref].
    rewrite SignedString_relay, Hm, Hacs. cbn [mbind outcome_bind deref].
    by rewrite Hp, String.eqb_refl.
Qed.

(** * Further properties of the middleware *)

Section ExtraLemmas.
Context `{GoLib}.

Lemma canonical_quick_cases u s0 s :
  canonical_quick u s0 s = s0 ∨ canonical_quick u s0 s = canonicalMIMEHeaderKey s0.
Proof.
  induction s as [|c s IH] in u |- *; cbn [canonical_quick]; [by left|].
  destruct (negb (validHeaderFieldByte c)); [by left|].
  destruct (u && is_lower c); [by right|].
  destruct (negb u && is_upper c); [by right|].
  apply IH.
Qed.

Lemma saml_key_prefix n : String.prefix "X-Saml" (saml_key n) = true.
Proof.
  unfold saml_key, CanonicalMIMEHeaderKey.
  destruct (canonical_quick_cases true ("X-Saml-" +:+ n) ("X-Saml-" +:+ n)) as [-> | ->];
    [reflexivity|].
  unfold canonicalMIMEHeaderKey. destruct (all_valid _); reflexivity.
Qed.

Lemma no_prefix_lookup h n : has_prefix_header h = false → h !! saml_key n = None.
Proof.
  unfold has_prefix_header. intros Hh.
  destruct (h !! saml_key n) as [vs|] eqn:E; [|done]. exfalso.
  apply elem_of_map_to_list in E.
  assert (Hx : existsb (λ kv, String.prefix "X-Saml" kv.1) (map_to_list h) = true).
  { apply existsb_exists. exists (saml_key n, vs). split.
    - by apply list_elem_of_In.
    - apply saml_key_prefix. }
  congruence.
Qed.

Definition attrs_fold (m0 : gmap string value) (attrs : list AssertionAttribute) :=
  foldl (λ cl a, <[FriendlyName a := VString (Value a)]> cl) m0 attrs.

Lemma attrs_fold_lookup attrs m0 n v :
  attrs_fold m0 attrs !! n = Some v →
  m0 !! n = Some v ∨ ∃ b, b ∈ attrs ∧ n = FriendlyName b ∧ v = VString (Value b).
Proof.
  induction attrs as [|a l IH] in m0 |- *; intros Hl; [by left|].
  cbn [attrs_fold foldl] in Hl. apply IH in Hl as [Hl|(b & Hb & -> & ->)].
  - destruct (decide (FriendlyName a = n)) as [<-|Hne].
    + rewrite lookup_insert_eq in Hl. injection Hl as <-.
      right. exists a. split; [apply elem_of_cons; by left|done].
    + rewrite lookup_insert_ne in Hl by done. by left.
  - right. exists b. split; [apply elem_of_cons; by right|done].
Qed.

Lemma attrs_fold_keep attrs m0 k w :
  m0 !! k = Some w →
  (∀ b, b ∈ attrs → FriendlyName b = k → VString (Value b) = w) →
  attrs_fold m0 attrs !! k = Some w.
Proof.
  induction attrs as [|a l IH] in m0 |- *; intros H0 Hb; [done|].
  cbn [attrs_fold foldl]. apply IH.
  - destruct (decide (FriendlyName a = k)) as [<-|Hne].
    + rewrite lookup_insert_eq. f_equal. apply Hb; [apply elem_of_cons; by left|done].
    + by rewrite lookup_insert_ne.
  - intros b Hin. apply Hb. apply elem_of_cons. by right.
Qed.

Lemma attrs_fold_hit attrs m0 a :
  a ∈ attrs →
  (∀ b, b ∈ attrs → FriendlyName b = FriendlyName a → Value b = Value a) →
  attrs_fold m0 attrs !! FriendlyName a = Some (VString (Value a)).
Proof.
  induction attrs as [|x l IH] in m0 |- *; intros Hin Hu; [by apply elem_of_nil in Hin|].
  cbn [attrs_fold foldl]. apply elem_of_cons in Hin as [->|Hin].
  - apply attrs_fold_keep; [by rewrite lookup_insert_eq|].
    intros b Hb Hn. f_equal. apply Hu; [apply elem_of_cons; by right|done].
  - apply IH; [done|]. intros b Hb. apply Hu. apply elem_of_cons. by right.
Qed.

Lemma session_claims_exp attrs issued :
  session_claims attrs issued !! "exp" = Some (VInt64 (issued + cookieMaxAge)).
Proof. unfold session_claims. by rewrite lookup_insert_eq. Qed.

Lemma session_claims_other attrs issued n v :
  n ≠ "exp" → session_claims attrs issued !! n = Some v →
  ∃ b, b ∈ attrs ∧ n = FriendlyName b ∧ v = VString (Value b).
Proof.
  intros Hn Hl. unfold session_claims in Hl. rewrite lookup_insert_ne in Hl by done.
  apply (attrs_fold_lookup attrs ∅) in Hl as [Hl|Hb]; [by rewrite lookup_empty in Hl|done].
Qed.

Lemma session_not_yet_valid now attrs issued :
  not_yet_valid now (json_reread <$> session_claims attrs issued) = false.
Proof.
  unfold not_yet_valid. rewrite lookup_fmap.
  destruct (session_claims attrs issued !! "nbf") as [v|] eqn:E; [|done].
  apply session_claims_other in E as (b & _ & _ & ->); done.
Qed.

Lemma session_expired now attrs issued :
  expired now (json_reread <$> session_claims attrs issued) = (issued + cookieMaxAge <? now).
Proof.
  unfold expired. rewrite lookup_fmap, session_claims_exp. simpl. apply Z.gtb_ltb.
Qed.

(** Parsing the session cookie issued by DefaultAuthorizeFunc. *)
Lemma session_cookie_Parse `{!GoLibLaws} m now0 issued r attrs evs c now :
  DefaultAuthorizeFunc m now0 issued r attrs = Ret evs → EvSetCookie c ∈ evs →
  json_text (session_claims attrs issued) = true →
  ∃ key, pem_Decode (SP_Key (MW_ServiceProvider m)) = Some key ∧
  Parse now (Cookie_Value c) (session_keyfunc m) =
    Ret (if issued + cookieMaxAge <? now then Err "token is invalid"
         else Ok {| Token_Raw := Cookie_Value c; Token_Method := HS256;
                    Token_Header := json_reread <$> Token_Header (New HS256);
                    Token_Claims := json_reread <$> session_claims attrs issued;
                    Token_Signature := EncodeSegment (hmac_Sum SHA256 key
                                         (SigningString (session_token attrs issued))) |}).
Proof.
  intros Hd Hin Ht.
  apply DefaultAuthorizeFunc_Ret in Hd as [->|(key & u & Hkey & ->)].
  { apply elem_of_cons in Hin as [[=]|Hin]. by apply elem_of_nil in Hin. }
  apply elem_of_cons in Hin as [[= ->]|Hin];
    [|apply elem_of_cons in Hin as [[=]|Hin]; by apply elem_of_nil in Hin].
  exists key. split; [done|]. cbn [Cookie_Value].
  erewrite (Parse_SignedString now (session_token attrs issued) key _ _ SHA256);
    [| reflexivity | apply header_text | exact Ht | apply header_alg
     | apply SignedString_HS256 | intros; unfold session_keyfunc; by rewrite Hkey].
  cbn [Token_Claims Token_Header session_token with_claims].
  rewrite session_expired, session_not_yet_valid.
  by destruct (issued + cookieMaxAge <? now).
Qed.

End ExtraLemmas.

(** The session cookie set by DefaultAuthorizeFunc at time [issued]
    (attribute names and values well-formed UTF-8, the expiry within 2^53)
    is accepted by DefaultIsAuthorized on a later request that carries it
    and no X-Saml header, as long as the verification time is at most
    [issued + 3600]; after that it is rejected and the request is left
    unchanged. *)
Theorem session_cookie_lifetime `{GoLibLaws} range_claims m now0 issued r attrs evs c now r2 :
  DefaultAuthorizeFunc m now0 issued r attrs = Ret evs → EvSetCookie c ∈ evs →
  json_text (session_claims attrs issued) = true →
  readCookie (Req_Header r2) cookieName = Some (Cookie_Value c) →
  (now ≤ issued + cookieMaxAge → has_prefix_header (Req_Header r2) = false →
     ∃ r2', DefaultIsAuthorized range_claims m now r2 = Ret (true, r2')) ∧
  (issued + cookieMaxAge < now →
     DefaultIsAuthorized range_claims m now r2 = Ret (false, r2)).
Proof.
  intros Hd Hin Ht Hc.
  destruct (session_cookie_Parse m now0 issued r attrs evs c now Hd Hin Ht) as (key & _ & Hp).
  unfold DefaultIsAuthorized. rewrite Hc, Hp. split.
  - intros Hle Hh. replace (issued + cookieMaxAge <? now) with false
      by (symmetry; apply Z.ltb_ge; lia).
    cbn [mbind outcome_bind]. rewrite Hh. by eexists.
  - intros Hlt. replace (issued + cookieMaxAge <? now) with true
      by (symmetry; apply Z.ltb_lt; lia). reflexivity.
Qed.

(** Within the hour, DefaultIsAuthorized on a request carrying the cookie
    issued by DefaultAuthorizeFunc sets, for every attribute other than
    [exp] whose header key no other attribute shares, the header
    [CanonicalMIMEHeaderKey("X-Saml-" + FriendlyName)] to [[Value]]. *)
Theorem session_attribute_headers `{GoLibLaws} range_claims m now0 issued r attrs evs c now r2 :
  (∀ cl, range_claims cl ≡ₚ map_to_list cl) →
  DefaultAuthorizeFunc m now0 issued r attrs = Ret evs → EvSetCookie c ∈ evs →
  json_text (session_claims attrs issued) = true →
  readCookie (Req_Header r2) cookieName = Some (Cookie_Value c) →
  has_prefix_header (Req_Header r2) = false →
  now ≤ issued + cookieMaxAge →
  ∃ r2', DefaultIsAuthorized range_claims m now r2 = Ret (true, r2') ∧
    ∀ a, a ∈ attrs → FriendlyName a ≠ "exp" →
      (∀ b, b ∈ attrs → saml_key (FriendlyName b) = saml_key (FriendlyName a) → b = a) →
      Req_Header r2' !! saml_key (FriendlyName a) = Some [Value a].
Proof.
  intros Hperm Hd Hin Ht Hc Hh Hle.
  destruct (session_cookie_Parse m now0 issued r attrs evs c now Hd Hin Ht) as (key & _ & Hp).
  unfold DefaultIsAuthorized. rewrite Hc, Hp.
  replace (issued + cookieMaxAge <? now) with false by (symmetry; apply Z.ltb_ge; lia).
  cbn [mbind outcome_bind]. rewrite Hh. eexists. split; [reflexivity|].
  intros a Ha Hexp Hu. cbn [Req_Header with_header Token_Claims].
  apply copy_claims_hit.
  - apply (range_elem range_claims); [done|]. rewrite lookup_fmap.
    unfold session_claims. rewrite lookup_insert_ne by done.
    change (foldl _ ∅ attrs) with (attrs_fold ∅ attrs).
    rewrite (attrs_fold_hit attrs ∅ a Ha); [done|].
    intros b Hb Hn. assert (b = a) as -> by (apply Hu; [done|by rewrite Hn]). done.
  - intros n' v' Hin' Hk. apply (range_elem range_claims) in Hin'; [|done].
    rewrite lookup_fmap in Hin'.
    destruct (session_claims attrs issued !! n') as [w|] eqn:E; [|discriminate].
    injection Hin' as Hw.
    destruct (decide (n' = "exp")) as [->|Hne].
    + rewrite session_claims_exp in E. injection E as <-. discriminate.
    + apply session_claims_other in E as (b & Hb & -> & ->); [|done].
      injection Hw as <-. by rewrite (Hu b Hb Hk).
Qed.

(** RequireAttribute behind RequireAccountMiddleware. *)
(** RequireAttribute(name, value) behind RequireAccountMiddleware (default
    authorization, verified session cookie, no inbound X-Saml header): it
    calls the handler on the authorized request when the token's string
    claim [name], and every string claim sharing its header key, is
    [value]; it answers 403 when no string claim with that header key has
    value [value]. *)
Theorem RequireAttribute_after_session `{GoLib} range_claims m now handler r c t name value :
  (∀ cl, range_claims cl ≡ₚ map_to_list cl) →
  IsAuthorizedFunc m = None →
  readCookie (Req_Header r) cookieName = Some c →
  Parse now c (session_keyfunc m) = Ret (Ok t) →
  has_prefix_header (Req_Header r) = false →
  ∃ r', DefaultIsAuthorized range_claims m now r = Ret (true, r') ∧
    (Token_Claims t !! name = Some (VString value) →
     (∀ n' v', Token_Claims t !! n' = Some (VString v') → saml_key n' = saml_key name → v' = value) →
     RequireAccountMiddleware range_claims m now (RequireAttribute name value handler) r =
       handler r') ∧
    ((∀ n' v', Token_Claims t !! n' = Some (VString v') → saml_key n' = saml_key name → v' ≠ value) →
     RequireAccountMiddleware range_claims m now (RequireAttribute name value handler) r =
       Ret [EvError StatusForbidden "Forbidden"]).
Proof.
  intros Hperm Hi Hc Hp Hh.
  assert (Hd : DefaultIsAuthorized range_claims m now r =
    Ret (true, with_header r (copy_claims (Req_Header r) (range_claims (Token_Claims t))))).
  { unfold DefaultIsAuthorized. rewrite Hc, Hp. cbn [mbind outcome_bind]. by rewrite Hh. }
  eexists. split; [exact Hd|].
  unfold RequireAccountMiddleware, isAuthorized. rewrite Hi, Hd.
  unfold RequireAttribute. cbn [Req_Header with_header]. fold (saml_key name).
  split.
  - intros Hn Hu. rewrite (copy_claims_hit _ _ name value).
    + cbn [existsb]. by rewrite String.eqb_refl.
    + by apply (range_elem range_claims).
    + intros n' v' Hin. apply Hu. by apply (range_elem range_claims) in Hin.
  - intros Hu.
    destruct (copy_claims_cases (Req_Header r) (range_claims (Token_Claims t)) (saml_key name))
      as [E|(n & v & Hin & Hk & E)]; rewrite E.
    + by rewrite no_prefix_lookup.
    + apply (range_elem range_claims) in Hin; [|done].
      cbn [existsb]. rewrite orb_false_r.
      destruct (String.eqb_spec v value) as [->|]; [|done].
      exfalso. by apply (Hu n value Hin).
Qed.

(** A key that does not PEM-decode. *)
(** With a key that does not PEM-decode, RequireAccountMiddleware panics
    on every request the authorization check rejects, DefaultAuthorizeFunc
    never sets a cookie (its only response is 403), and it panics when there
    is no RelayState. *)
Theorem bad_key_never_authenticates `{GoLib} range_claims m now issued handler r r' r2 attrs :
  pem_Decode (SP_Key (MW_ServiceProvider m)) = None →
  (isAuthorized range_claims m now r = Ret (false, r') →
     ∃ msg, RequireAccountMiddleware range_claims m now handler r = Panic msg) ∧
  (∀ evs, DefaultAuthorizeFunc m now issued r2 attrs = Ret evs →
     evs = [EvError StatusForbidden "Forbidden"]) ∧
  (nonempty (Values_Get (Req_Form r2) "RelayState") = false →
     ∃ msg, DefaultAuthorizeFunc m now issued r2 attrs = Panic msg).
Proof.
  intros Hk. split; [|split].
  - intros Ha. unfold RequireAccountMiddleware. rewrite Ha, Hk. by eexists.
  - intros evs Hd. apply DefaultAuthorizeFunc_Ret in Hd as [->|(key & u & Hkey & _)]; [done|].
    congruence.
  - intros Hr. unfold DefaultAuthorizeFunc. rewrite Hr. cbn [mbind outcome_bind].
    rewrite Hk. by eexists.
Qed.

(** Every cookie DefaultAuthorizeFunc sets is named [token] (the name
    DefaultIsAuthorized reads), has path "/" and is not HttpOnly, and the
    response is that cookie followed by a single 302. *)
Theorem session_cookie_attributes `{GoLib} m now issued r attrs evs c :
  DefaultAuthorizeFunc m now issued r attrs = Ret evs → EvSetCookie c ∈ evs →
  Cookie_Name c = cookieName ∧ Cookie_Path c = "/" ∧ Cookie_HttpOnly c = false ∧
  ∃ u, evs = [EvSetCookie c; EvRedirect u StatusFound].
Proof.
  intros Hd Hin. apply DefaultAuthorizeFunc_Ret in Hd as [->|(key & u & Hkey & ->)].
  - apply elem_of_cons in Hin as [[=]|Hin]. by apply elem_of_nil in Hin.
  - apply elem_of_cons in Hin as [[= ->]|Hin];
      [|apply elem_of_cons in Hin as [[=]|Hin]; by apply elem_of_nil in Hin].
    split; [done|]. split; [done|]. split; [done|]. by exists u.
Qed.

(** ServeHTTP, comparing the decoded request path with the decoded paths
    of the two configured URLs, serves the metadata at the metadata path
    (even when it is also the ACS path); elsewhere it panics if the ACS URL does not parse,
    answers 404 off the ACS path, and at the ACS path answers 403 without
    calling the authorize function when the SAML response does not
    parse. *)
Theorem ServeHTTP_routing `{GoLib} m now issued metadata ParseResponse r mu :
  url_Parse (SP_MetadataURL (MW_ServiceProvider m)) = Some mu →
  (URL_Path (Req_URL r) = URL_Path mu →
     ServeHTTP m now issued metadata ParseResponse r = Ret (RespBody metadata)) ∧
  (URL_Path (Req_URL r) ≠ URL_Path mu →
   (url_Parse (SP_AcsURL (MW_ServiceProvider m)) = None →
      ∃ msg, ServeHTTP m now issued metadata ParseResponse r = Panic msg) ∧
   ∀ au, url_Parse (SP_AcsURL (MW_ServiceProvider m)) = Some au →
   (URL_Path (Req_URL r) ≠ URL_Path au →
      ServeHTTP m now issued metadata ParseResponse r =
        Ret (RespEvents [EvError StatusNotFound "404 page not found"])) ∧
   (URL_Path (Req_URL r) = URL_Path au → ∀ e, ParseResponse r = Err e →
      ServeHTTP m now issued metadata ParseResponse r =
        Ret (RespEvents [EvError StatusForbidden "Forbidden"]))).
Proof.
  intros Hmu. unfold ServeHTTP. rewrite Hmu. cbn [mbind outcome_bind deref]. split.
  - intros ->. by rewrite String.eqb_refl.
  - intros Hne. apply String.eqb_neq in Hne. rewrite Hne. split.
    + intros ->. by eexists.
    + intros au ->. cbn [mbind outcome_bind deref]. split.
      * intros Hne'. apply String.eqb_neq in Hne'. by rewrite Hne'.
      * intros -> e ->. by rewrite String.eqb_refl.
Qed.

(** A metadata URL that does not parse makes ServeHTTP panic on every
    request. *)
Theorem ServeHTTP_bad_metadata_url `{GoLib} m now issued metadata ParseResponse r :
  url_Parse (SP_MetadataURL (MW_ServiceProvider m)) = None →
  ∃ msg, ServeHTTP m now issued metadata ParseResponse r = Panic msg.
Proof. intros Hmu. unfold ServeHTTP. rewrite Hmu. by eexists. Qed.

Section MoreLemmas.
Context `{GoLib}.

Lemma relay_state_Parse `{!GoLibLaws} r key signed now :
  SignedString (relay_state_token r) key = Ok signed →
  utf8_valid (URL_String (Req_URL r)) = true →
  ∃ t, Parse now signed (relay_keyfunc (Some key)) = Ret (Ok t) ∧
       Token_Claims t !! "uri" = Some (VString (URL_String (Req_URL r))).
Proof.
  intros Hs Hu.
  erewrite (Parse_SignedString now (relay_state_token r) key _ _ SHA256);
    [| reflexivity | apply header_text | by apply relay_claims_text | apply header_alg
     | exact Hs | intros; reflexivity].
  assert (Hx : json_reread <$> Token_Claims (relay_state_token r) =
               {["uri" := VString (URL_String (Req_URL r))]}).
  { unfold relay_state_token, set_claim. cbn [Token_Claims New].
    by rewrite insert_empty, map_fmap_singleton. }
  rewrite Hx. unfold expired, not_yet_valid.
  rewrite !lookup_singleton_ne by done. simpl.
  eexists. split; [reflexivity|]. cbn [Token_Claims]. by rewrite lookup_singleton_eq.
Qed.

Lemma nonempty_join_dot a b : nonempty (join_dot a b) = true.
Proof. unfold join_dot. destruct a; [rewrite append_nil|rewrite append_cons]; reflexivity. Qed.

End MoreLemmas.

(** The login round trip: when the IdP posts back to the ACS path (a
    decoded path that is not also the metadata path) the relay state
    RequireAccountMiddleware signed for request [r], with [r.URL.String()]
    valid UTF-8, and the SAML response parses, ServeHTTP (default authorize
    function) sets the session cookie and redirects to [r.URL.String()], at
    any time: the relay state carries no expiry. *)
Theorem login_returns_to_original_uri `{GoLibLaws} m now issued metadata ParseResponse
    r r2 key signed mu au attrs :
  AuthorizeFunc m = None →
  pem_Decode (SP_Key (MW_ServiceProvider m)) = Some key →
  SignedString (relay_state_token r) key = Ok signed →
  utf8_valid (URL_String (Req_URL r)) = true →
  url_Parse (SP_MetadataURL (MW_ServiceProvider m)) = Some mu →
  url_Parse (SP_AcsURL (MW_ServiceProvider m)) = Some au →
  URL_Path (Req_URL r2) ≠ URL_Path mu → URL_Path (Req_URL r2) = URL_Path au →
  Values_Get (Req_Form r2) "RelayState" = signed →
  ParseResponse r2 = Ok attrs →
  ∃ c, ServeHTTP m now issued metadata ParseResponse r2 =
         Ret (RespEvents [EvSetCookie c; EvRedirect (URL_String (Req_URL r)) StatusFound]) ∧
       Cookie_Name c = cookieName ∧
       SignedString (session_token attrs issued) key = Ok (Cookie_Value c).
Proof.
  intros Ha Hk Hs Hu Hmu Hau Hne Heq Hrs Hpr.
  destruct (relay_state_Parse r key signed now Hs Hu) as (t & Hp & Huri).
  assert (Hn : nonempty signed = true).
  { rewrite SignedString_relay in Hs. injection Hs as <-. apply nonempty_join_dot. }
  unfold ServeHTTP. rewrite Hmu. cbn [mbind outcome_bind deref].
  apply String.eqb_neq in Hne. rewrite Hne, Hau. cbn [mbind outcome_bind deref].
  rewrite Heq, String.eqb_refl, Hpr, Ha. cbv zeta.
  unfold DefaultAuthorizeFunc. cbv zeta. rewrite Hrs, Hk, Hn, Hp.
  cbn [mbind outcome_bind]. rewrite Huri. cbn [mbind outcome_bind deref].
  rewrite SignedString_HS256. cbn [mbind outcome_bind].
  eexists. split; [reflexivity|]. split; reflexivity.
Qed.

(** Letters get their case from their position; each toggling keeps the
    byte a token character. *)
Lemma canonical_char u c :
  validHeaderFieldByte c = true →
  let c' := if u && is_lower c then toUpper c
            else if negb u && is_upper c then toLower c else c in
  validHeaderFieldByte c' = true ∧ (u && is_lower c') = false ∧ (negb u && is_upper c') = false.
Proof.
  intros Hv. destruct u, c as [[] [] [] [] [] [] [] []]; vm_compute in Hv |- *;
    try discriminate; repeat split.
Qed.

Lemma canonical_quick_go u t0 s :
  all_valid s = true → canonical_quick u t0 (canonical_go u s) = t0.
Proof.
  induction s as [|c s IH] in u |- *; intros Hv; [done|].
  cbn [all_valid] in Hv. apply andb_prop in Hv as [Hc Hs].
  destruct (canonical_char u c Hc) as (H1 & H2 & H3).
  cbn [canonical_go canonical_quick]. rewrite H1, H2, H3. cbn [negb]. by apply IH.
Qed.

Lemma CanonicalMIMEHeaderKey_cases s :
  CanonicalMIMEHeaderKey s = s ∨
  (all_valid s = true ∧ CanonicalMIMEHeaderKey s = canonical_go true s).
Proof.
  unfold CanonicalMIMEHeaderKey.
  destruct (canonical_quick_cases true s s) as [E|E]; rewrite E; [by left|].
  unfold canonicalMIMEHeaderKey. destruct (all_valid s) eqn:V; [by right|by left].
Qed.

(** CanonicalMIMEHeaderKey is idempotent, so a header set with Header.Set
    under [k] is read back by Header.Get under [k] and under its canonical
    form. *)
Theorem CanonicalMIMEHeaderKey_idempotent :
  (∀ s, CanonicalMIMEHeaderKey (CanonicalMIMEHeaderKey s) = CanonicalMIMEHeaderKey s) ∧
  (∀ h k v, Header_Get (Header_Set h k v) k = v ∧
            Header_Get (Header_Set h k v) (CanonicalMIMEHeaderKey k) = v).
Proof.
  assert (Hi : ∀ s, CanonicalMIMEHeaderKey (CanonicalMIMEHeaderKey s) = CanonicalMIMEHeaderKey s).
  { intros s. destruct (CanonicalMIMEHeaderKey_cases s) as [E|[V E]]; rewrite E; [by rewrite E|].
    unfold CanonicalMIMEHeaderKey at 1. by apply canonical_quick_go. }
  split; [exact Hi|]. intros h k v. unfold Header_Get, Header_Set.
  rewrite Hi, lookup_insert_eq. done.
Qed.

(** DefaultIsAuthorized changes no header whose name does not start with
    "X-Saml", nor the URL or the form, whatever it answers and whatever the
    iteration order of the claims. *)
Theorem DefaultIsAuthorized_only_saml_headers `{GoLib} range_claims m now r b r' :
  DefaultIsAuthorized range_claims m now r = Ret (b, r') →
  Req_URL r' = Req_URL r ∧ Req_Form r' = Req_Form r ∧
  ∀ k, String.prefix "X-Saml" k = false → Req_Header r' !! k = Req_Header r !! k.
Proof.
  unfold DefaultIsAuthorized.
  destruct (readCookie (Req_Header r) cookieName) as [c|]; [|by intros [= _ <-]].
  destruct (Parse now c (session_keyfunc m)) as [[t|e]|msg];
    cbn [mbind outcome_bind]; [|by intros [= _ <-]|discriminate].
  destruct (has_prefix_header (Req_Header r)); [discriminate|].
  intros [= _ <-]. split; [done|]. split; [done|]. intros k Hk. cbn [Req_Header with_header].
  destruct (copy_claims_cases (Req_Header r) (range_claims (Token_Claims t)) k)
    as [E|(n & v & _ & -> & _)]; [done|].
  by rewrite saml_key_prefix in Hk.
Qed.

(** A request the authorization check rejects never reaches the wrapped
    handler: the response of RequireAccountMiddleware does not depend on
    it, and is a single 500 or a single 302 when it does not panic. *)
Theorem unauthorized_never_reaches_handler `{GoLib} range_claims m now r r' h1 h2 :
  isAuthorized range_claims m now r = Ret (false, r') →
  RequireAccountMiddleware range_claims m now h1 r = RequireAccountMiddleware range_claims m now h2 r ∧
  ∀ evs, RequireAccountMiddleware range_claims m now h1 r = Ret evs →
    (∃ e, evs = [EvError StatusInternalServerError e]) ∨ (∃ u, evs = [EvRedirect u StatusFound]).
Proof.
  intros Ha. unfold RequireAccountMiddleware. rewrite Ha. split; [reflexivity|].
  intros evs.
  destruct (pem_Decode (SP_Key (MW_ServiceProvider m))) as [key|];
    cbn [mbind outcome_bind deref nil_deref]; [|discriminate].
  destruct (SignedString (relay_state_token r') key) as [s|e]; [|discriminate].
  destruct (SP_MakeRedirectAuthenticationRequest (MW_ServiceProvider m) s) as [u|e].
  - destruct (url_Parse (SP_AcsURL (MW_ServiceProvider m))) as [acs|];
      cbn [mbind outcome_bind deref nil_deref]; [|discriminate].
    destruct (String.eqb _ _); [discriminate|]. intros [= <-]. right. by eexists.
  - intros [= <-]. left. by eexists.
Qed.

(** * Concrete runs: witnesses and counterexamples *)

Import Toy.

(** Counterexample to C1: a token signed with the session secret under
    HS512 verifies with the session key function, and a cookie carrying it
    authorizes the request. *)
Lemma C1_counterexample :
  (∃ t, Parse 0 hs512_token (session_keyfunc (mw sp_ok)) = Ret (Ok t) ∧
        Token_Method t = SigningMethodHMAC SHA512) ∧
  (∃ r', DefaultIsAuthorized map_to_list (mw sp_ok) 0
           (req (path_url "/" "") (cookie_header hs512_token) ∅) = Ret (true, r')).
Proof.
  vm_compute. split.
  - eexists. split; reflexivity.
  - eexists. reflexivity.
Qed.

Lemma C1_witness :
  (∃ t, Parse 2000 alice_cookie (session_keyfunc (mw sp_ok)) = Ret (Ok t) ∧
        ∃ key, pem_Decode (SP_Key (MW_ServiceProvider (mw sp_ok))) = Some key ∧
               hmac_signed key alice_cookie t) ∧
  (∃ tok, SignedString (with_claims (New (SigningMethodHMAC SHA512)) alice_claims) "secret"
            = Ok tok ∧
          ∃ t', Parse 2000 tok (session_keyfunc (mw sp_ok)) = Ret (Ok t')).
Proof.
  destruct (Parse 2000 alice_cookie (session_keyfunc (mw sp_ok))) as [[t|e]|msg] eqn:E;
    [| vm_compute in E; discriminate ..].
  destruct (C1_accepted_tokens_are_hmac (mw sp_ok) None 2000 alice_cookie t)
    as (H1 & _ & H3).
  split.
  - exists t. split; [reflexivity|]. exact (H1 E).
  - destruct (H3 SHA512 "secret" alice_claims) as (tok & Hs & Hsess & _).
    + vm_compute. reflexivity.
    + intros e' [He|He]; vm_compute in He; [injection He as <-; lia | discriminate].
    + intros e' [He|He]; vm_compute in He; discriminate.
    + exists tok. split; [exact Hs|]. apply Hsess. reflexivity.
Defined.

(** Counterexample to C2: a request with an [X-Saml-Uid] header and no
    cookie is not aborted: DefaultIsAuthorized returns false. *)
Lemma C2_counterexample :
  DefaultIsAuthorized map_to_list (mw sp_ok) 0
    (req (path_url "/" "") {["X-Saml-Uid" := ["admin"]]} ∅) =
  Ret (false, req (path_url "/" "") {["X-Saml-Uid" := ["admin"]]} ∅).
Proof. vm_compute. reflexivity. Qed.

Lemma C2_witness :
  ∃ msg, DefaultIsAuthorized map_to_list (mw sp_ok) 2000
           (req (path_url "/" "") (<["X-Saml-Uid" := ["admin"]]> (cookie_header alice_cookie)) ∅)
         = Panic msg.
Proof.
  destruct (Parse 2000 alice_cookie (session_keyfunc (mw sp_ok))) as [[t|e]|msg] eqn:E;
    [| vm_compute in E; discriminate ..].
  refine (proj2 (proj2 (C2_prefix_check_after_verification map_to_list (mw sp_ok) 2000
                          (req (path_url "/" "")
                               (<["X-Saml-Uid" := ["admin"]]> (cookie_header alice_cookie)) ∅) _))
            alice_cookie t _ E).
  - vm_compute. reflexivity.
  - vm_compute. reflexivity.
Defined.

Lemma C3_witness :
  DefaultAuthorizeFunc (mw sp_ok) 0 1000
    (req (path_url "/saml/acs" "") ∅ {["RelayState" := ["forged"]]}) alice =
    Ret [EvError StatusForbidden "Forbidden"] ∧
  ∃ c, DefaultAuthorizeFunc (mw sp_ok) 0 1000 (req (path_url "/saml/acs" "") ∅ ∅) alice =
       Ret [EvSetCookie c; EvRedirect "/" StatusFound].
Proof.
  split.
  - refine (proj1 (C3_relay_state_forbidden_or_root (mw sp_ok) 0 1000
                     (req (path_url "/saml/acs" "") ∅ {["RelayState" := ["forged"]]}) alice)
              _ "token contains an invalid number of segments" _).
    + vm_compute. reflexivity.
    + vm_compute. reflexivity.
  - refine (proj2 (proj2 (C3_relay_state_forbidden_or_root (mw sp_ok) 0 1000
                            (req (path_url "/saml/acs" "") ∅ ∅) alice) _) "secret" _).
    + vm_compute. reflexivity.
    + reflexivity.
Defined.



(** Counterexample to C5: a verified cookie does not always give [true]
    and one header per string claim: an inbound [X-Saml-Uid] header makes
    DefaultIsAuthorized panic, and of the claims [uid = alice] and
    [UID = mallory] only one survives in the single header [X-Saml-Uid]. *)
Lemma C5_counterexample :
  (∃ msg, DefaultIsAuthorized map_to_list (mw sp_ok) 2000
            (req (path_url "/" "") (<["X-Saml-Uid" := ["admin"]]> (cookie_header alice_cookie)) ∅)
          = Panic msg) ∧
  (∃ r', DefaultIsAuthorized map_to_list (mw sp_ok) 0
           (req (path_url "/" "") (cookie_header uid_collision_token) ∅) = Ret (true, r') ∧
         Req_Header r' !! saml_key "uid" = Some ["mallory"]).
Proof.
  split.
  - vm_compute. eexists. reflexivity.
  - vm_compute. eexists. split; [reflexivity|]. vm_compute. reflexivity.
Qed.

Lemma C5_witness :
  (∃ r', DefaultIsAuthorized map_to_list (mw sp_ok) 2000
           (req (path_url "/protected" "x=1") (cookie_header alice_cookie) ∅) = Ret (true, r')) ∧
  (∃ msg, DefaultIsAuthorized map_to_list (mw sp_ok) 2000
            (req (path_url "/protected" "x=1")
                 (<["X-Saml-Uid" := ["admin"]]> (cookie_header alice_cookie)) ∅) = Panic msg).
Proof.
  destruct (Parse 2000 alice_cookie (session_keyfunc (mw sp_ok))) as [[t|e]|msg] eqn:E;
    [| vm_compute in E; discriminate ..].
  split.
  - destruct (C5_string_claims_copied map_to_list (mw sp_ok) 2000
                (req (path_url "/protected" "x=1") (cookie_header alice_cookie) ∅) alice_cookie t)
      as [_ Hf].
    + intros cl. reflexivity.
    + vm_compute. reflexivity.
    + exact E.
    + destruct Hf as (r' & Hr & _); [vm_compute; reflexivity|].
      exists r'. exact Hr.
  - destruct (C5_string_claims_copied map_to_list (mw sp_ok) 2000
                (req (path_url "/protected" "x=1")
                     (<["X-Saml-Uid" := ["admin"]]> (cookie_header alice_cookie)) ∅)
                alice_cookie t) as [Ht _].
    + intros cl. reflexivity.
    + vm_compute. reflexivity.
    + exact E.
    + apply Ht. vm_compute. reflexivity.
Defined.

(** Counterexample to C6: a token whose [exp] is 0 does not verify at time
    1, and an int64 claim comes back as a float64. *)
Lemma C6_counterexample :
  (∃ e, Parse 1 expired_token (relay_keyfunc (Some "secret")) = Ret (Err e)) ∧
  (∃ t, Parse 0 int_claim_token (relay_keyfunc (Some "secret")) = Ret (Ok t) ∧
        Token_Claims t ≠ {["n" := VInt64 5]}).
Proof.
  split.
  - vm_compute. eexists. reflexivity.
  - vm_compute. eexists. split; [reflexivity|].
    intros H. vm_compute in H. discriminate H.
Qed.

Lemma C6_witness :
  ∃ tok t, SignedString (with_claims (New HS256) alice_claims) "secret" = Ok tok ∧
    Parse 2000 tok (relay_keyfunc (Some "secret")) = Ret (Ok t) ∧
    Token_Claims t = json_reread <$> alice_claims.
Proof.
  apply (C6_roundtrip_unexpired 2000 alice_claims "secret").
  - vm_compute. reflexivity.
  - intros e [H|H]; vm_compute in H; [injection H as <-; lia | discriminate].
  - intros e [H|H]; vm_compute in H; discriminate.
Defined.

Lemma C7_witness :
  DefaultAuthorizeFunc (mw sp_ok) 0 1000 (req (path_url "/saml/acs" "") ∅ ∅) alice =
    DefaultAuthorizeFunc (mw sp_fail) 0 1000 (req (path_url "/saml/acs" "") ∅ ∅) alice ∧
  DefaultAuthorizeFunc (mw sp_ok) 0 1000 (req (path_url "/saml/acs" "") ∅ ∅) alice =
    Ret [EvSetCookie alice_session_cookie; EvRedirect "/" StatusFound] ∧
  Cookie_MaxAge alice_session_cookie = 3600.
Proof.
  destruct (C7_session_lifetime_hardcoded (mw sp_ok) (mw sp_fail) 0 1000
              (req (path_url "/saml/acs" "") ∅ ∅) alice eq_refl) as [Heq Hc].
  assert (E : DefaultAuthorizeFunc (mw sp_ok) 0 1000 (req (path_url "/saml/acs" "") ∅ ∅) alice =
              Ret [EvSetCookie alice_session_cookie; EvRedirect "/" StatusFound]).
  { vm_compute. reflexivity. }
  split; [exact Heq|]. split; [exact E|].
  apply (proj1 (Hc _ alice_session_cookie E ltac:(left))).
Defined.

(** Counterexample to C8: when the verifier fails, an unauthorized request
    for the ACS path gets a 500 instead of the loop panic. *)
Lemma C8_counterexample :
  RequireAccountMiddleware map_to_list (mw sp_fail) 0 handler (req (path_url "/saml/acs" "") ∅ ∅) =
  Ret [EvError StatusInternalServerError "cannot find an IDP SSO endpoint"].
Proof. vm_compute. reflexivity. Qed.

(** The decoded path of [/saml/ac%73] is the ACS path: the loop guard
    fires on it. *)
Lemma C8_witness :
  RequireAccountMiddleware map_to_list (mw sp_ok) 0 handler
    (req (path_url "/saml/ac%73" "") ∅ ∅) =
  Panic "don't wrap ServiceProviderMiddleware with RequireAccountMiddleware".
Proof.
  refine (proj2 (C8_acs_path_never_redirects map_to_list (mw sp_ok) 0 handler
                   (req (path_url "/saml/ac%73" "") ∅ ∅) (req (path_url "/saml/ac%73" "") ∅ ∅)
                   (path_url "/saml/acs" "") _ _ _) "secret" (idp_url _) _ _).
  - vm_compute. reflexivity.
  - vm_compute. reflexivity.
  - vm_compute. reflexivity.
  - reflexivity.
  - reflexivity.
Defined.

Lemma C9_witness :
  DefaultIsAuthorized map_to_list (mw sp_ok) 0
    (req (path_url "/" "") (cookie_header "forged") ∅) =
    Ret (false, req (path_url "/" "") (cookie_header "forged") ∅) ∧
  req (path_url "/" "") (cookie_header "forged") ∅ = req (path_url "/" "") (cookie_header "forged") ∅.
Proof.
  assert (H : DefaultIsAuthorized map_to_list (mw sp_ok) 0
                (req (path_url "/" "") (cookie_header "forged") ∅) =
              Ret (false, req (path_url "/" "") (cookie_header "forged") ∅)).
  { vm_compute. reflexivity. }
  split; [exact H|].
  exact (C9_false_leaves_request map_to_list (mw sp_ok) 0 _ _ H).
Defined.

Lemma C10_witness :
  ∃ msg, DefaultAuthorizeFunc (mw sp_ok) 0 1000
           (req (path_url "/saml/acs" "") ∅ {["RelayState" := [no_uri_token]]}) alice = Panic msg.
Proof.
  destruct (Parse 0 no_uri_token (relay_keyfunc (pem_Decode (SP_Key (MW_ServiceProvider (mw sp_ok))))))
    as [[t|e]|msg] eqn:E; [| vm_compute in E; discriminate ..].
  apply (C10_relay_state_without_uri_panics (mw sp_ok) 0 1000
           (req (path_url "/saml/acs" "") ∅ {["RelayState" := [no_uri_token]]}) alice t).
  - vm_compute. reflexivity.
  - exact E.
  - intros u H. vm_compute in E. injection E as <-. vm_compute in H. discriminate.
Defined.

(** ** Witnesses of the further properties *)

Lemma session_cookie_lifetime_witness :
  (∃ r2', DefaultIsAuthorized map_to_list (mw sp_ok) 2000 alice_request = Ret (true, r2')) ∧
  DefaultIsAuthorized map_to_list (mw sp_ok) 5000 alice_request = Ret (false, alice_request).
Proof.
  assert (Hd : DefaultAuthorizeFunc (mw sp_ok) 0 1000 (req (path_url "/saml/acs" "") ∅ ∅) alice =
               Ret [EvSetCookie alice_session_cookie; EvRedirect "/" StatusFound]).
  { vm_compute. reflexivity. }
  split.
  - refine (proj1 (session_cookie_lifetime map_to_list (mw sp_ok) 0 1000 _ alice _
                     alice_session_cookie 2000 alice_request Hd _ _ _) _ _).
    + left.
    + vm_compute. reflexivity.
    + vm_compute. reflexivity.
    + unfold cookieMaxAge. lia.
    + vm_compute. reflexivity.
  - refine (proj2 (session_cookie_lifetime map_to_list (mw sp_ok) 0 1000 _ alice _
                     alice_session_cookie 5000 alice_request Hd _ _ _) _).
    + left.
    + vm_compute. reflexivity.
    + vm_compute. reflexivity.
    + unfold cookieMaxAge. lia.
Defined.

Lemma session_attribute_headers_witness :
  ∃ r2', DefaultIsAuthorized map_to_list (mw sp_ok) 2000 alice_request = Ret (true, r2') ∧
         Req_Header r2' !! "X-Saml-Uid" = Some ["alice@example.com"].
Proof.
  assert (Hd : DefaultAuthorizeFunc (mw sp_ok) 0 1000 (req (path_url "/saml/acs" "") ∅ ∅) alice =
               Ret [EvSetCookie alice_session_cookie; EvRedirect "/" StatusFound]).
  { vm_compute. reflexivity. }
  destruct (session_attribute_headers map_to_list (mw sp_ok) 0 1000
              (req (path_url "/saml/acs" "") ∅ ∅) alice
              [EvSetCookie alice_session_cookie; EvRedirect "/" StatusFound]
              alice_session_cookie 2000 alice_request)
    as (r2' & Hr & Hh).
  - intros cl. reflexivity.
  - exact Hd.
  - left.
  - vm_compute. reflexivity.
  - vm_compute. reflexivity.
  - vm_compute. reflexivity.
  - unfold cookieMaxAge. lia.
  - exists r2'. split; [exact Hr|].
    refine (Hh {| FriendlyName := "uid"; Value := "alice@example.com" |} _ _ _).
    + left.
    + discriminate.
    + intros b Hb _. by apply list_elem_of_singleton in Hb.
Defined.

Lemma RequireAttribute_after_session_witness :
  RequireAccountMiddleware map_to_list (mw sp_ok) 2000
    (RequireAttribute "uid" "alice@example.com" handler) alice_request = handler alice_authorized ∧
  RequireAccountMiddleware map_to_list (mw sp_ok) 2000
    (RequireAttribute "uid" "bob@example.com" handler) alice_request =
    Ret [EvError StatusForbidden "Forbidden"].
Proof.
  assert (Hp : Parse 2000 alice_cookie (session_keyfunc (mw sp_ok)) = Ret (Ok alice_parsed)).
  { vm_compute. reflexivity. }
  assert (Hl : map_to_list (Token_Claims alice_parsed) =
               [("uid", VString "alice@example.com"); ("exp", VFloat64 4600)]).
  { vm_compute. reflexivity. }
  assert (Hc : ∀ n' v', Token_Claims alice_parsed !! n' = Some (VString v') →
                        v' = "alice@example.com").
  { intros n' v' Hn. apply elem_of_map_to_list in Hn. rewrite Hl in Hn.
    apply elem_of_cons in Hn as [[= _ <-]|Hn]; [done|].
    apply list_elem_of_singleton in Hn. discriminate. }
  split.
  - destruct (RequireAttribute_after_session map_to_list (mw sp_ok) 2000 handler alice_request
                alice_cookie alice_parsed "uid" "alice@example.com")
      as (r' & Hr & Hyes & _).
    + intros cl. reflexivity.
    + reflexivity.
    + vm_compute. reflexivity.
    + exact Hp.
    + vm_compute. reflexivity.
    + assert (E : Ret (true, r') = Ret (true, alice_authorized)).
      { rewrite <- Hr. vm_compute. reflexivity. }
      injection E as ->. apply Hyes.
      * vm_compute. reflexivity.
      * intros n' v' Hn _. exact (Hc n' v' Hn).
  - destruct (RequireAttribute_after_session map_to_list (mw sp_ok) 2000 handler alice_request
                alice_cookie alice_parsed "uid" "bob@example.com")
      as (r' & Hr & _ & Hno).
    + intros cl. reflexivity.
    + reflexivity.
    + vm_compute. reflexivity.
    + exact Hp.
    + vm_compute. reflexivity.
    + apply Hno. intros n' v' Hn _. rewrite (Hc n' v' Hn). discriminate.
Defined.

Lemma bad_key_never_authenticates_witness :
  (∃ msg, RequireAccountMiddleware map_to_list (mw sp_nokey) 0 handler protected_request = Panic msg) ∧
  (∃ msg, DefaultAuthorizeFunc (mw sp_nokey) 0 1000 (req (path_url "/saml/acs" "") ∅ ∅) alice
          = Panic msg).
Proof.
  destruct (bad_key_never_authenticates map_to_list (mw sp_nokey) 0 1000 handler protected_request
              protected_request (req (path_url "/saml/acs" "") ∅ ∅) alice) as (H1 & _ & H3).
  - reflexivity.
  - split.
    + apply H1. vm_compute. reflexivity.
    + apply H3. reflexivity.
Defined.

Lemma session_cookie_attributes_witness :
  Cookie_Name alice_session_cookie = "token" ∧ Cookie_Path alice_session_cookie = "/" ∧
  Cookie_HttpOnly alice_session_cookie = false.
Proof.
  assert (Hd : DefaultAuthorizeFunc (mw sp_ok) 0 1000 (req (path_url "/saml/acs" "") ∅ ∅) alice =
               Ret [EvSetCookie alice_session_cookie; EvRedirect "/" StatusFound]).
  { vm_compute. reflexivity. }
  destruct (session_cookie_attributes (mw sp_ok) 0 1000 _ alice _ alice_session_cookie Hd
              ltac:(left)) as (H1 & H2 & H3 & _).
  split; [exact H1|]. split; [exact H2|exact H3].
Defined.

(** The metadata is served at [/saml/metadat%61], whose decoded path is
    the metadata path. *)
Lemma ServeHTTP_routing_witness :
  ServeHTTP (mw sp_ok) 0 1000 metadata parse_ok (req (path_url "/saml/metadat%61" "") ∅ ∅) =
    Ret (RespBody metadata) ∧
  ServeHTTP (mw sp_ok) 0 1000 metadata parse_ok (req (path_url "/other" "") ∅ ∅) =
    Ret (RespEvents [EvError StatusNotFound "404 page not found"]) ∧
  ServeHTTP (mw sp_ok) 0 1000 metadata parse_fail (req (path_url "/saml/acs" "") ∅ ∅) =
    Ret (RespEvents [EvError StatusForbidden "Forbidden"]).
Proof.
  split; [|split].
  - apply (proj1 (@ServeHTTP_routing lib (mw sp_ok) 0 1000 metadata parse_ok
                    (req (path_url "/saml/metadat%61" "") ∅ ∅) (path_url "/saml/metadata" "") ltac:(reflexivity))).
    vm_compute. reflexivity.
  - destruct (proj2 (@ServeHTTP_routing lib (mw sp_ok) 0 1000 metadata parse_ok
                       (req (path_url "/other" "") ∅ ∅) (path_url "/saml/metadata" "") ltac:(reflexivity))
                ltac:(vm_compute; discriminate)) as [_ Hacs].
    apply (proj1 (Hacs (path_url "/saml/acs" "") ltac:(reflexivity))). vm_compute. discriminate.
  - destruct (proj2 (@ServeHTTP_routing lib (mw sp_ok) 0 1000 metadata parse_fail
                       (req (path_url "/saml/acs" "") ∅ ∅) (path_url "/saml/metadata" "") ltac:(reflexivity))
                ltac:(vm_compute; discriminate)) as [_ Hacs].
    apply (proj2 (Hacs (path_url "/saml/acs" "") ltac:(reflexivity)) ltac:(reflexivity) "invalid response").
    reflexivity.
Defined.

Lemma ServeHTTP_bad_metadata_url_witness :
  ∃ msg, @ServeHTTP lib_badurl (mw sp_badurl) 0 1000 metadata parse_ok protected_request = Panic msg.
Proof. apply (@ServeHTTP_bad_metadata_url lib_badurl). reflexivity. Defined.

Lemma login_returns_to_original_uri_witness :
  ∃ c, ServeHTTP (mw sp_ok) 0 1000 metadata parse_ok
         (acs_post (signed (relay_state_token protected_request))) =
       Ret (RespEvents [EvSetCookie c; EvRedirect "/protected?x=1" StatusFound]).
Proof.
  destruct (login_returns_to_original_uri (mw sp_ok) 0 1000 metadata parse_ok protected_request
              (acs_post (signed (relay_state_token protected_request))) "secret"
              (signed (relay_state_token protected_request))
              (path_url "/saml/metadata" "") (path_url "/saml/acs" "") alice)
    as (c & Hs & _).
  - reflexivity.
  - reflexivity.
  - vm_compute. reflexivity.
  - vm_compute. reflexivity.
  - reflexivity.
  - reflexivity.
  - vm_compute. discriminate.
  - reflexivity.
  - vm_compute. reflexivity.
  - reflexivity.
  - exists c. rewrite Hs. reflexivity.
Defined.

Lemma DefaultIsAuthorized_only_saml_headers_witness :
  DefaultIsAuthorized map_to_list (mw sp_ok) 2000 alice_request = Ret (true, alice_authorized) ∧
  Req_Header alice_authorized !! "Cookie" = Req_Header alice_request !! "Cookie".
Proof.
  assert (Hd : DefaultIsAuthorized map_to_list (mw sp_ok) 2000 alice_request =
               Ret (true, alice_authorized)) by (vm_compute; reflexivity).
  split; [exact Hd|].
  apply (DefaultIsAuthorized_only_saml_headers map_to_list (mw sp_ok) 2000 _ _ _ Hd).
  reflexivity.
Defined.

Lemma unauthorized_never_reaches_handler_witness :
  RequireAccountMiddleware map_to_list (mw sp_ok) 0 handler protected_request =
  RequireAccountMiddleware map_to_list (mw sp_ok) 0 (λ r, Ret [EvServed r]) protected_request.
Proof.
  apply (unauthorized_never_reaches_handler map_to_list (mw sp_ok) 0 protected_request
           protected_request).
  vm_compute. reflexivity.
Defined.
